(** * Tool service: registry, validation, dispatch and batch dispatch

    A shallow embedding of the dispatch core of the tool service
    ([main.py], [tools/base_tool.py], [tools/web_search.py] and the
    constructors of the other tool classes), and the properties of it that
    the specification states.

    Python values are embedded as the JSON-shaped fragment the service
    exchanges; dictionaries are insertion-ordered association lists; the
    interpreter state the handlers touch (the module-level [tools] dict, the
    parameter dictionaries of the requests, the wall clock and the log) is
    threaded explicitly through a state-and-exception monad. *)

From Stdlib Require Import String Ascii List ZArith QArith Bool Lia.
From Stdlib Require Import DecimalString.
Import ListNotations.
Open Scope string_scope.
Open Scope Z_scope.

(* ================================================================= *)
(** ** Python values *)

(** The values that reach the service through JSON bodies and that the
    tools build.  Integers are unbounded.  A float is carried by its
    canonical [repr] text: the service only ever prints, tests for truth or
    rejects floats, and never computes with the ones it receives. *)
#[warnings="-register-all"]
Inductive Value : Type :=
  | VNone
  | VBool (b : bool)
  | VInt (z : Z)
  | VFloat (repr : string)
  | VStr (s : string)
  | VList (l : list Value)
  | VDict (d : list (string * Value)).

(** A [dict] with [str] keys, in insertion order. *)
Definition PyDict (V : Type) : Type := list (string * V).

Definition Dict : Type := PyDict Value.

Module dict.
Section Ops.
Context {V : Type}.

(** [d.get(key)] without a default: [None] when the key is absent. *)
Fixpoint lookup (key : string) (d : PyDict V) : option V :=
  match d with
  | [] => None
  | (k, v) :: rest => if String.eqb k key then Some v else lookup key rest
  end.

(** [d.get(key, default)] *)
Definition get (d : PyDict V) (key : string) (default : V) : V :=
  match lookup key d with
  | Some v => v
  | None => default
  end.

(** [key in d] *)
Definition contains (key : string) (d : PyDict V) : bool :=
  match lookup key d with
  | Some _ => true
  | None => false
  end.

(** [d[key] = v]: an existing key keeps its position and takes the new
    value, a new key is appended. *)
Fixpoint setitem (key : string) (v : V) (d : PyDict V) : PyDict V :=
  match d with
  | [] => [(key, v)]
  | (k, v0) :: rest =>
      if String.eqb k key then (k, v) :: rest
      else (k, v0) :: setitem key v rest
  end.

(** A dict display [{k1: v1, ..., kn: vn}]: the entries are inserted from
    left to right. *)
Definition display (entries : list (string * V)) : PyDict V :=
  fold_left (fun d kv => setitem (fst kv) (snd kv) d) entries [].

End Ops.
End dict.

(* ================================================================= *)
(** ** Rendering values: [str] and [repr] *)

Definition double_quote : ascii := "034"%char.
Definition single_quote : ascii := "039"%char.
Definition backslash : ascii := "092"%char.

Fixpoint string_mem (c : ascii) (s : string) : bool :=
  match s with
  | EmptyString => false
  | String c' s' => Ascii.eqb c c' || string_mem c s'
  end.

Definition hex_digit (n : nat) : ascii :=
  ascii_of_nat (if Nat.ltb n 10 then 48 + n else 87 + n)%nat.

(** One character of the [repr] of a [str].  Bytes from 128 up belong to
    the UTF-8 encoding of a non-ASCII character and are kept as they are. *)
Definition repr_char (quote c : ascii) : string :=
  let n := nat_of_ascii c in
  if Ascii.eqb c quote || Ascii.eqb c backslash then String backslash (String c "")
  else if Nat.eqb n 9 then String backslash "t"
  else if Nat.eqb n 10 then String backslash "n"
  else if Nat.eqb n 13 then String backslash "r"
  else if Nat.ltb n 32 || Nat.eqb n 127 then
    String backslash (String "x" (String (hex_digit (n / 16)) (String (hex_digit (n mod 16)) "")))
  else String c "".

Fixpoint repr_chars (quote : ascii) (s : string) : string :=
  match s with
  | EmptyString => ""
  | String c s' => repr_char quote c ++ repr_chars quote s'
  end.

(** [repr(s)] for a [str]: single quotes, unless the text has a single quote
    and no double quote. *)
Definition repr_str (s : string) : string :=
  let quote :=
    if string_mem single_quote s && negb (string_mem double_quote s)
    then double_quote else single_quote in
  String quote (repr_chars quote s ++ String quote "").

Definition str_of_int (z : Z) : string := NilZero.string_of_int (Z.to_int z).

Fixpoint join (sep : string) (parts : list string) : string :=
  match parts with
  | [] => ""
  | [p] => p
  | p :: rest => p ++ sep ++ join sep rest
  end.

Fixpoint py_repr (v : Value) : string :=
  match v with
  | VNone => "None"
  | VBool true => "True"
  | VBool false => "False"
  | VInt z => str_of_int z
  | VFloat r => r
  | VStr s => repr_str s
  | VList l => "[" ++ join ", " (map py_repr l) ++ "]"
  | VDict d =>
      "{" ++ join ", " (map (fun kv => repr_str (fst kv) ++ ": " ++ py_repr (snd kv)) d) ++ "}"
  end.

(** [str(v)], which is also what an f-string field [{v}] renders. *)
Definition py_str (v : Value) : string :=
  match v with
  | VStr s => s
  | _ => py_repr v
  end.

(** Truth value of an object, as [if v:] and list-comprehension filters
    test it. *)
Definition py_truthy (v : Value) : bool :=
  match v with
  | VNone => false
  | VBool b => b
  | VInt z => negb (Z.eqb z 0)
  | VFloat r => negb (String.eqb r "0.0" || String.eqb r "-0.0")
  | VStr s => negb (String.eqb s "")
  | VList l => match l with [] => false | _ => true end
  | VDict d => match d with [] => false | _ => true end
  end.

(** [v == text] for a [str] literal [text]: only an equal [str] is equal
    to it. *)
Definition py_eq_str (v : Value) (text : string) : bool :=
  match v with
  | VStr s => String.eqb s text
  | _ => false
  end.

(** A dict whose values are dicts, seen as a value. *)
Definition dict_of_dicts (d : PyDict Dict) : Value :=
  VDict (map (fun kv => (fst kv, VDict (snd kv))) d).


(* ================================================================= *)
(** ** Exceptions *)

(** An instance of a subclass of [Exception], which is what a tool raises
    when it fails and what [except Exception] catches: its class and the
    text that [str(e)] gives.  Interpreter signals that derive from
    [BaseException] alone (keyboard interrupt, exit, task cancellation) are
    not part of the model. *)
Record PyException : Type := mkException {
  exc_class : string;
  exc_text : string
}.

Definition ValueError (msg : string) : PyException := mkException "ValueError" msg.
Definition TypeError (msg : string) : PyException := mkException "TypeError" msg.
Definition KeyError (key : string) : PyException := mkException "KeyError" (repr_str key).

(** The framework's [HTTPException(status_code, detail)], which it renders
    as the status code, a colon and the detail. *)
Definition HTTPException (status_code : Z) (detail : string) : PyException :=
  mkException "HTTPException" (str_of_int status_code ++ ": " ++ detail).

(* ================================================================= *)
(** ** Tool objects and the interpreter state *)

(** The tool classes that [main.py] imports. *)
Inductive ToolClass : Type :=
  | WebSearchTool
  | DataAnalysisTool
  | ReportGenerationTool
  | CompetitorAnalysisTool
  | TrendAnalysisTool.

Definition class_name (c : ToolClass) : string :=
  match c with
  | WebSearchTool => "WebSearchTool"
  | DataAnalysisTool => "DataAnalysisTool"
  | ReportGenerationTool => "ReportGenerationTool"
  | CompetitorAnalysisTool => "CompetitorAnalysisTool"
  | TrendAnalysisTool => "TrendAnalysisTool"
  end.

(** The attributes of a tool instance; [parameters] maps each parameter
    name to its specification, itself a dict. *)
Record ToolObject : Type := mkTool {
  tool_class : ToolClass;
  name : string;
  description : string;
  parameters : PyDict Dict
}.

(** A reference to a parameters dict in the heap. *)
Definition ref : Type := nat.

(** What a handler or a tool method can read and write:
    - [tools], the module-level registry of [main.py];
    - [heap], the parameter dicts that requests carry by reference;
    - [clock] and [ticks]: [clock n] is what the [n]-th call of
      [datetime.now()] returns, in microseconds, and [ticks] counts the
      calls made so far;
    - [log], the records passed to [logger.error], oldest first. *)
Record World : Type := mkWorld {
  tools : PyDict ToolObject;
  heap : ref -> Dict;
  clock : nat -> Z;
  ticks : nat;
  log : list string
}.

Definition with_tools (registry : PyDict ToolObject) (w : World) : World :=
  mkWorld registry (heap w) (clock w) (ticks w) (log w).

Definition with_heap (h : ref -> Dict) (w : World) : World :=
  mkWorld (tools w) h (clock w) (ticks w) (log w).

Definition with_log (lines : list string) (w : World) : World :=
  mkWorld (tools w) (heap w) (clock w) (ticks w) lines.

(** The world once the clock has been read one more time. *)
Definition tick (w : World) : World :=
  mkWorld (tools w) (heap w) (clock w) (S (ticks w)) (log w).

(** Computations that read and write the world and either return or raise. *)
Definition M (A : Type) : Type := World -> (A + PyException) * World.

Definition ret {A} (a : A) : M A := fun w => (inl a, w).

Definition raise {A} (e : PyException) : M A := fun w => (inr e, w).

Definition bind {A B} (m : M A) (k : A -> M B) : M B :=
  fun w =>
    match m w with
    | (inl a, w') => k a w'
    | (inr e, w') => (inr e, w')
    end.

(** [try: body except Exception as e: handler e] *)
Definition try_except {A} (body : M A) (handler : PyException -> M A) : M A :=
  fun w =>
    match body w with
    | (inl a, w') => (inl a, w')
    | (inr e, w') => handler e w'
    end.

Declare Scope py_scope.
Delimit Scope py_scope with py.
Notation "x <- m ;; k" := (bind m (fun x => k))
  (at level 61, m at next level, right associativity) : py_scope.
Notation "m ;; k" := (bind m (fun _ => k))
  (at level 61, right associativity) : py_scope.
Notation "'try' body 'except' e '=>' handler" := (try_except body (fun e => handler))
  (at level 61, e name, body at level 9, handler at level 9) : py_scope.
Open Scope py_scope.

(** Reading the module-level name [tools]. *)
Definition global_tools : M (PyDict ToolObject) := fun w => (inl (tools w), w).

(** [parameters.get(key, default)] on the dict behind a reference. *)
Definition params_get (parameters : ref) (key : string) (default : Value) : M Value :=
  fun w => (inl (dict.get (heap w parameters) key default), w).

(** [key in parameters] on the dict behind a reference. *)
Definition params_contains (key : string) (parameters : ref) : M bool :=
  fun w => (inl (dict.contains key (heap w parameters)), w).

(** [parameters[key] = v]: no code of the service calls it; it is what a
    tool that wrote to its parameters would do. *)
Definition params_setitem (parameters : ref) (key : string) (v : Value) : M unit :=
  fun w =>
    (inl tt,
     with_heap (fun r => if Nat.eqb r parameters
                         then dict.setitem key v (heap w r) else heap w r) w).

(** [d[key]], raising [KeyError] on an absent key. *)
Definition getitem {V} (d : PyDict V) (key : string) : M V :=
  match dict.lookup key d with
  | Some v => ret v
  | None => raise (KeyError key)
  end.

(** [datetime.now()], in microseconds. *)
Definition datetime_now : M Z :=
  fun w => (inl (clock w (ticks w)), tick w).

(** [(t1 - t0).total_seconds()]: the difference is a [timedelta], an exact
    count of microseconds; the float it is turned into is represented
    by the rational it approximates. *)
Definition total_seconds (t1 t0 : Z) : Q := (t1 - t0) # 1000000.

(** [logger.error(line)] *)
Definition logger_error (line : string) : M unit :=
  fun w => (inl tt, with_log (log w ++ [line]) w).

(** The [execute] method of a class: it receives [self] and the reference
    to the parameters dict. *)
Definition Method : Type := ToolObject -> ref -> M Value.

(** The method table: which [execute] a call [tool.execute(...)] runs, by
    the class of [tool]. *)
Class Classes : Type := execute_of : ToolClass -> Method.

(* ================================================================= *)
(** ** tools/base_tool.py *)

Module BaseTool.

(** [__init__]: the attributes every tool starts with. *)
Definition __init__ (cls : ToolClass) : ToolObject :=
  mkTool cls (class_name cls) "Base tool description" [].

(** [execute], the abstract method: its body is [pass]. *)
Definition execute : Method := fun self parameters => ret VNone.

Definition get_parameters (self : ToolObject) : PyDict Dict := parameters self.

(** [[k for k, v in self.parameters.items() if v.get('required', False)]] *)
Definition required_params (self : ToolObject) : list string :=
  map fst
      (filter (fun kv => py_truthy (dict.get (snd kv) "required" (VBool false)))
              (parameters self)).

(** The loop of [validate_parameters] over [required_params]. *)
Fixpoint check_required (required : list string) (parameters : ref) : M unit :=
  match required with
  | [] => ret tt
  | param :: rest =>
      present <- params_contains param parameters ;;
      if negb present
      then raise (ValueError ("Missing required parameter: " ++ param))
      else check_required rest parameters
  end.

Definition validate_parameters (self : ToolObject) (parameters : ref) : M bool :=
  check_required (required_params self) parameters ;;
  ret true.

Definition execute_with_validation `{Classes} (self : ToolObject) (parameters : ref)
  : M Value :=
  try (validate_parameters self parameters ;;
       execute_of (tool_class self) self parameters)
  except e =>
    (logger_error ("Tool execution failed: " ++ exc_text e) ;;
     raise e).

End BaseTool.

(* ================================================================= *)
(** ** tools/web_search.py *)

(** [l[:stop]] for an arbitrary object [stop]. *)
Definition slice_to {A} (l : list A) (stop : Value) : M (list A) :=
  let upto (n : Z) :=
    if n <? 0 then firstn (Z.to_nat (Z.of_nat (length l) + n)) l
    else firstn (Z.to_nat n) l in
  match stop with
  | VNone => ret l
  | VInt n => ret (upto n)
  | VBool b => ret (upto (if b then 1 else 0))
  | _ => raise (TypeError "slice indices must be integers or None or have an __index__ method")
  end.

Module WebSearchTool.

Definition __init__ : ToolObject :=
  let self := BaseTool.__init__ WebSearchTool in
  mkTool (tool_class self)
    "web_search"
    "执行网络搜索，获取相关信息"
    [ ("query",
        [ ("type", VStr "string");
          ("description", VStr "搜索查询");
          ("required", VBool true) ]);
      ("num_results",
        [ ("type", VStr "integer");
          ("description", VStr "返回结果数量");
          ("required", VBool false);
          ("default", VInt 10) ]);
      ("search_type",
        [ ("type", VStr "string");
          ("description", VStr "搜索类型");
          ("required", VBool false);
          ("default", VStr "web");
          ("enum", VList [VStr "web"; VStr "news"; VStr "academic"]) ]) ].

Definition _perform_search (self : ToolObject) (query num_results search_type : Value)
  : M (list Value) :=
  let mock_results :=
    [ VDict [ ("title", VStr ("搜索结果 1 - " ++ py_str query));
              ("url", VStr "https://example.com/result1");
              ("snippet", VStr ("这是关于 " ++ py_str query ++ " 的第一个搜索结果..."));
              ("source", VStr "example.com") ];
      VDict [ ("title", VStr ("搜索结果 2 - " ++ py_str query));
              ("url", VStr "https://example.com/result2");
              ("snippet", VStr ("这是关于 " ++ py_str query ++ " 的第二个搜索结果..."));
              ("source", VStr "example.com") ] ] in
  slice_to mock_results num_results.

Definition execute : Method := fun self parameters =>
  query <- params_get parameters "query" VNone ;;
  num_results <- params_get parameters "num_results" (VInt 10) ;;
  search_type <- params_get parameters "search_type" (VStr "web") ;;
  try (results <- _perform_search self query num_results search_type ;;
       ret (VDict [ ("query", query);
                    ("search_type", search_type);
                    ("num_results", VInt (Z.of_nat (length results)));
                    ("results", VList results);
                    ("timestamp", VStr "2024-01-01T00:00:00Z") ]))
  except e =>
    (logger_error ("Web search failed: " ++ exc_text e) ;;
     raise e).

End WebSearchTool.

(* ================================================================= *)
(** ** The constructors of the other tool classes

    [tools/data_analysis.py], [tools/report_generation.py] and
    [tools/competitor_analysis.py].  Only what the registry and the
    validation read is embedded: the attributes set by [__init__].  Their
    [execute] bodies, and the whole of [tools/trend_analysis.py], which is
    not among the sources, enter through the method table [Classes]. *)

Module DataAnalysisTool.

Definition __init__ : ToolObject :=
  let self := BaseTool.__init__ DataAnalysisTool in
  mkTool (tool_class self)
    "data_analysis"
    "执行数据分析，包括统计分析、趋势分析等"
    [ ("data",
        [ ("type", VStr "array");
          ("description", VStr "要分析的数据");
          ("required", VBool true) ]);
      ("analysis_type",
        [ ("type", VStr "string");
          ("description", VStr "分析类型");
          ("required", VBool true);
          ("enum", VList [VStr "descriptive"; VStr "trend"; VStr "correlation";
                          VStr "regression"]) ]);
      ("columns",
        [ ("type", VStr "array");
          ("description", VStr "要分析的列");
          ("required", VBool false) ]) ].

End DataAnalysisTool.

Module ReportGenerationTool.

Definition __init__ : ToolObject :=
  let self := BaseTool.__init__ ReportGenerationTool in
  mkTool (tool_class self)
    "report_generation"
    "生成研究报告，支持多种格式"
    [ ("title",
        [ ("type", VStr "string");
          ("description", VStr "报告标题");
          ("required", VBool true) ]);
      ("content",
        [ ("type", VStr "object");
          ("description", VStr "报告内容");
          ("required", VBool true) ]);
      ("format",
        [ ("type", VStr "string");
          ("description", VStr "输出格式");
          ("required", VBool false);
          ("default", VStr "markdown");
          ("enum", VList [VStr "markdown"; VStr "html"; VStr "json"]) ]);
      ("template",
        [ ("type", VStr "string");
          ("description", VStr "报告模板");
          ("required", VBool false);
          ("default", VStr "standard") ]) ].

(** [execute] and [_generate_json_report].  The Markdown and HTML
    generators (string templates over [strftime] and [json.dumps]) and the
    [isoformat] rendering of a clock reading are not embedded: they are
    parameters, and what is stated of [execute] holds whatever they do. *)
Section Execute.
Variable _generate_markdown_report : ToolObject -> Value -> Value -> Value -> M Value.
Variable _generate_html_report : ToolObject -> Value -> Value -> Value -> M Value.
Variable isoformat : Z -> string.

Definition _generate_json_report (self : ToolObject) (title content template : Value)
  : M Value :=
  now <- datetime_now ;;
  ret (VDict [ ("title", title);
               ("generated_at", VStr (isoformat now));
               ("template", template);
               ("content", content) ]).

Definition execute : Method := fun self parameters =>
  title <- params_get parameters "title" VNone ;;
  content <- params_get parameters "content" VNone ;;
  format_type <- params_get parameters "format" (VStr "markdown") ;;
  template <- params_get parameters "template" (VStr "standard") ;;
  try (report <-
         (if py_eq_str format_type "markdown"
          then _generate_markdown_report self title content template
          else if py_eq_str format_type "html"
          then _generate_html_report self title content template
          else if py_eq_str format_type "json"
          then _generate_json_report self title content template
          else raise (ValueError ("Unsupported format: " ++ py_str format_type))) ;;
       now <- datetime_now ;;
       ret (VDict [ ("title", title);
                    ("format", format_type);
                    ("template", template);
                    ("content", report);
                    ("generated_at", VStr (isoformat now)) ]))
  except e =>
    (logger_error ("Report generation failed: " ++ exc_text e) ;;
     raise e).

End Execute.

End ReportGenerationTool.

Module CompetitorAnalysisTool.

Definition __init__ : ToolObject :=
  let self := BaseTool.__init__ CompetitorAnalysisTool in
  mkTool (tool_class self)
    "competitor_analysis"
    "分析竞争对手，包括产品、市场、策略等"
    [ ("company_name",
        [ ("type", VStr "string");
          ("description", VStr "要分析的公司名称");
          ("required", VBool true) ]);
      ("competitors",
        [ ("type", VStr "array");
          ("description", VStr "竞争对手列表");
          ("required", VBool false) ]);
      ("analysis_dimensions",
        [ ("type", VStr "array");
          ("description", VStr "分析维度");
          ("required", VBool false);
          ("default", VList [VStr "product"; VStr "market"; VStr "strategy"]);
          ("enum", VList [VStr "product"; VStr "market"; VStr "strategy";
                          VStr "technology"; VStr "financial"]) ]);
      ("time_period",
        [ ("type", VStr "string");
          ("description", VStr "分析时间周期");
          ("required", VBool false);
          ("default", VStr "1y");
          ("enum", VList [VStr "3m"; VStr "6m"; VStr "1y"; VStr "2y"; VStr "5y"]) ]) ].

End CompetitorAnalysisTool.

(* ================================================================= *)
(** ** main.py *)

Module main.

Record ToolRequest : Type := mkRequest {
  tool_name : string;
  parameters : ref
}.

Record ToolResponse : Type := mkResponse {
  success : bool;
  data : Value;
  message : string;
  execution_time : Q
}.

(** What the dicts appended to [results] hold. *)
Inductive Field : Type :=
  | FStr (s : string)
  | FBool (b : bool)
  | FData (v : Value)
  | FSeconds (t : Q).

Record BatchResponse : Type := mkBatch {
  results : list (PyDict Field)
}.

(** The dict display bound to [tools].  [trend_analysis] is the object
    that [TrendAnalysisTool()] builds. *)
Definition tools_display (trend_analysis : ToolObject) : PyDict ToolObject :=
  dict.display
    [ ("web_search", WebSearchTool.__init__);
      ("data_analysis", DataAnalysisTool.__init__);
      ("report_generation", ReportGenerationTool.__init__);
      ("competitor_analysis", CompetitorAnalysisTool.__init__);
      ("trend_analysis", trend_analysis) ].

(** The module-level statement [tools = {...}]. *)
Definition bind_tools (trend_analysis : ToolObject) : M unit :=
  fun w => (inl tt, with_tools (tools_display trend_analysis) w).

Definition root : M Value :=
  ret (VDict [ ("message", VStr "Coco AI Tool Service");
               ("version", VStr "1.0.0");
               ("status", VStr "running") ]).

(** [health_check]; [isoformat] renders the clock reading. *)
Definition health_check (isoformat : Z -> string) : M Value :=
  now <- datetime_now ;;
  registry <- global_tools ;;
  ret (VDict [ ("status", VStr "healthy");
               ("timestamp", VStr (isoformat now));
               ("available_tools", VList (map (fun kv => VStr (fst kv)) registry)) ]).

(** The [for name, tool in tools.items()] loop of [list_tools];
    [tool_list] is the list built so far. *)
Fixpoint list_tools_loop (items : list (string * ToolObject)) (tool_list : list Value)
  : list Value :=
  match items with
  | [] => tool_list
  | (name, tool) :: rest =>
      list_tools_loop rest
        (tool_list ++ [ VDict [ ("name", VStr name);
                                ("description", VStr (description tool));
                                ("parameters", dict_of_dicts (BaseTool.get_parameters tool));
                                ("status", VStr "available") ] ])%list
  end.

Definition list_tools : M Value :=
  registry <- global_tools ;;
  ret (VDict [ ("tools", VList (list_tools_loop registry [])) ]).

Definition get_tool_info (tool_name : string) : M Value :=
  registry <- global_tools ;;
  if negb (dict.contains tool_name registry)
  then raise (HTTPException 404 "Tool not found")
  else
    registry <- global_tools ;;
    tool <- getitem registry tool_name ;;
    ret (VDict [ ("name", VStr tool_name);
                 ("description", VStr (description tool));
                 ("parameters", dict_of_dicts (BaseTool.get_parameters tool));
                 ("status", VStr "available") ]).

Section Handlers.
Context `{Classes}.

Definition execute_tool (tool_name : string) (request : ToolRequest) : M ToolResponse :=
  registry <- global_tools ;;
  if negb (dict.contains tool_name registry)
  then raise (HTTPException 404 "Tool not found")
  else
    registry <- global_tools ;;
    tool <- getitem registry tool_name ;;
    start_time <- datetime_now ;;
    try (result <- execute_of (tool_class tool) tool (parameters request) ;;
         now <- datetime_now ;;
         let execution_time := total_seconds now start_time in
         ret (mkResponse true result "Tool executed successfully" execution_time))
    except e =>
      (now <- datetime_now ;;
       let execution_time := total_seconds now start_time in
       logger_error ("Tool execution failed: " ++ exc_text e) ;;
       ret (mkResponse false VNone ("Tool execution failed: " ++ exc_text e)
                       execution_time)).

(** The [for request in requests] loop of [execute_batch_tools];
    [results] is the list built so far. *)
Fixpoint batch_loop (requests : list ToolRequest) (results : list (PyDict Field))
  : M (list (PyDict Field)) :=
  match requests with
  | [] => ret results
  | request :: rest =>
      registry <- global_tools ;;
      if negb (dict.contains (tool_name request) registry)
      then
        batch_loop rest
          (results ++ [ [ ("tool_name", FStr (tool_name request));
                          ("success", FBool false);
                          ("error", FStr "Tool not found") ] ])%list
      else
        registry <- global_tools ;;
        tool <- getitem registry (tool_name request) ;;
        start_time <- datetime_now ;;
        results <-
          (try (result <- execute_of (tool_class tool) tool (parameters request) ;;
                now <- datetime_now ;;
                let execution_time := total_seconds now start_time in
                ret (results ++ [ [ ("tool_name", FStr (tool_name request));
                                    ("success", FBool true);
                                    ("data", FData result);
                                    ("execution_time", FSeconds execution_time) ] ])%list)
           except e =>
             (now <- datetime_now ;;
              let execution_time := total_seconds now start_time in
              ret (results ++ [ [ ("tool_name", FStr (tool_name request));
                                  ("success", FBool false);
                                  ("error", FStr (exc_text e));
                                  ("execution_time", FSeconds execution_time) ] ])%list)) ;;
        batch_loop rest results
  end.

Definition execute_batch_tools (requests : list ToolRequest) : M BatchResponse :=
  results <- batch_loop requests [] ;;
  ret (mkBatch results).

End Handlers.

End main.

(* ================================================================= *)
(** ** The method table of the service *)

(** [WebSearchTool.execute] is the body embedded above.  The bodies of the
    other classes (pandas and numpy computations, report rendering, the
    absent trend analysis module) are supplied by [others]. *)
Definition service_classes (others : ToolClass -> Method) : Classes :=
  fun c =>
    match c with
    | WebSearchTool => WebSearchTool.execute
    | _ => others c
    end.

(** The same table with the embedded body of [ReportGenerationTool.execute],
    given its two generators and the rendering of clock readings. *)
Definition report_classes
  (markdown html : ToolObject -> Value -> Value -> Value -> M Value)
  (isoformat : Z -> string) (others : ToolClass -> Method) : Classes :=
  fun c =>
    match c with
    | ReportGenerationTool => ReportGenerationTool.execute markdown html isoformat
    | _ => service_classes others c
    end.

(* ================================================================= *)
(** ** Vocabulary of the statements *)

(** [w'] has the same parameter dicts, the same registry and the same tool
    attributes as [w]. *)
Definition same_store (w w' : World) : Prop :=
  heap w' = heap w /\ tools w' = tools w.

(** A computation that writes neither to a parameters dict nor to the
    registry nor to a tool object. *)
Definition preserves {A} (m : M A) : Prop :=
  forall w, same_store w (snd (m w)).

Definition read_only (m : Method) : Prop :=
  forall self parameters, preserves (m self parameters).

(** A stateless method: whether it returns or raises, and what, is decided
    by the tool's attributes and the content of the parameters alone. *)
Definition pure_method (m : Method) : Prop :=
  forall self p1 p2 w1 w2,
    heap w1 p1 = heap w2 p2 -> fst (m self p1 w1) = fst (m self p2 w2).

(** [spec.get('required', False)] taken as a truth value. *)
Definition required (spec : Dict) : bool :=
  py_truthy (dict.get spec "required" (VBool false)).

(** The dict appended by the batch loop for a name that is not registered. *)
Definition not_found_item (request : main.ToolRequest) : PyDict main.Field :=
  [ ("tool_name", main.FStr (main.tool_name request));
    ("success", main.FBool false);
    ("error", main.FStr "Tool not found") ].

(** The world in which the dict behind [parameters] has [key] set to [v]. *)
Definition heap_setitem (parameters : ref) (key : string) (v : Value) (w : World) : World :=
  snd (params_setitem parameters key v w).

(** The number of results [web_search] hands back when asked for [n]. *)
Definition results_for (n : Z) : nat :=
  if n <? 0 then Z.to_nat (2 + n) else Nat.min 2 (Z.to_nat n).

(* ================================================================= *)
(** ** Sample worlds *)

Module sample.

(** The samples call [web_search] only; the table is closed with the
    body the other classes inherit from [BaseTool]. *)
Definition classes : Classes := service_classes (fun _ => BaseTool.execute).

(** [tools/trend_analysis.py] is not among the sources: the samples register
    under its name an object with the attributes every tool starts with. *)
Definition trend_analysis : ToolObject := BaseTool.__init__ TrendAnalysisTool.

(** Successive readings of the clock, 1500 microseconds apart. *)
Definition wall_clock (n : nat) : Z := 1700000000000000 + 1500 * Z.of_nat n.

(** The service after start-up, holding one request body at reference 0. *)
Definition world (body : Dict) : World :=
  mkWorld (main.tools_display trend_analysis)
          (fun r => match r with O => body | _ => [] end)
          wall_clock 0%nat [].

Definition request (tool_name : string) : main.ToolRequest :=
  main.mkRequest tool_name 0%nat.

(** The service after start-up, holding the bodies of a batch at the
    references 0, 1, 2, ... *)
Definition batch_world (bodies : list Dict) : World :=
  mkWorld (main.tools_display trend_analysis)
          (fun r => nth r bodies [])
          wall_clock 0%nat [].

(** A batch of three: a search that fails, a search that succeeds, a name
    that is not registered. *)
Definition mixed_bodies : list Dict :=
  [ [("query", VStr "rocq"); ("num_results", VStr "two")];
    [("query", VStr "rocq"); ("num_results", VInt 0)];
    [("text", VStr "rocq")] ].

(** Generators and a rendering to close the table of [report_classes]
    in samples that never reach them. *)
Definition no_generator : ToolObject -> Value -> Value -> Value -> M Value :=
  fun self title content template => ret (VStr "").

Definition report_table : Classes :=
  report_classes no_generator no_generator str_of_int (fun _ => BaseTool.execute).

Definition mixed_batch : list main.ToolRequest :=
  [ main.mkRequest "web_search" 0%nat;
    main.mkRequest "web_search" 1%nat;
    main.mkRequest "translate" 2%nat ].

(** A table in which every class is a tool that records a default in the
    dict it is given. *)
Definition writing_classes : Classes :=
  fun c self parameters =>
    params_setitem parameters "num_results" (VInt 10) ;;
    ret VNone.

End sample.

(* ================================================================= *)
(** * Properties *)

(** ** Dictionaries *)

Section DictFacts.
Context {V : Type}.

Lemma contains_lookup (key : string) (d : PyDict V) :
  dict.contains key d = true <-> exists v, dict.lookup key d = Some v.
Proof.
  unfold dict.contains. destruct (dict.lookup key d) as [v|].
  - split; [eauto | reflexivity].
  - split; [discriminate | intros [v Hv]; discriminate].
Qed.

Lemma contains_false_lookup (key : string) (d : PyDict V) :
  dict.contains key d = false <-> dict.lookup key d = None.
Proof.
  unfold dict.contains. destruct (dict.lookup key d); split; congruence.
Qed.

Lemma lookup_setitem_same (key : string) (v : V) (d : PyDict V) :
  dict.lookup key (dict.setitem key v d) = Some v.
Proof.
  induction d as [|[k v0] rest IH]; simpl.
  - now rewrite String.eqb_refl.
  - destruct (String.eqb k key) eqn:E; simpl; rewrite E; auto.
Qed.

Lemma lookup_setitem_other (key key' : string) (v : V) (d : PyDict V) :
  key <> key' ->
  dict.lookup key' (dict.setitem key v d) = dict.lookup key' d.
Proof.
  intros Hne. induction d as [|[k v0] rest IH]; simpl.
  - destruct (String.eqb_spec key key'); [contradiction | reflexivity].
  - destruct (String.eqb_spec k key) as [->|Hk]; simpl.
    + destruct (String.eqb_spec key key'); [contradiction | reflexivity].
    + destruct (String.eqb k key'); auto.
Qed.

Lemma lookup_app (key : string) (d1 d2 : PyDict V) :
  dict.lookup key (d1 ++ d2)%list =
  match dict.lookup key d1 with
  | Some v => Some v
  | None => dict.lookup key d2
  end.
Proof.
  induction d1 as [|[k v0] rest IH]; simpl; [reflexivity|].
  destruct (String.eqb k key); auto.
Qed.

(** Inserting the entries of a display one after the other: the value
    found under a name is the one of its last entry. *)
Lemma lookup_fold_setitem (key : string) (entries : list (string * V)) :
  forall d,
    dict.lookup key (fold_left (fun d kv => dict.setitem (fst kv) (snd kv) d) entries d) =
    match dict.lookup key (rev entries) with
    | Some v => Some v
    | None => dict.lookup key d
    end.
Proof.
  induction entries as [|[k v] rest IH]; intros d; simpl; [reflexivity|].
  rewrite IH, lookup_app. simpl.
  destruct (dict.lookup key (rev rest)); [reflexivity|].
  destruct (String.eqb_spec k key) as [->|Hk].
  - apply lookup_setitem_same.
  - now apply lookup_setitem_other.
Qed.

Lemma lookup_display (key : string) (entries : list (string * V)) :
  dict.lookup key (dict.display entries) = dict.lookup key (rev entries).
Proof.
  unfold dict.display. rewrite lookup_fold_setitem. simpl.
  now destruct (dict.lookup key (rev entries)).
Qed.

End DictFacts.

(** ** Validation *)

Section Validation.

Variable params : ref.
Variable w : World.

Lemma check_required_world (names : list string) :
  snd (BaseTool.check_required names params w) = w.
Proof.
  induction names as [|k rest IH]; simpl; [reflexivity|].
  unfold bind, params_contains. simpl.
  destruct (dict.contains k (heap w params)); simpl; auto.
Qed.

Lemma check_required_cons (k : string) (rest : list string) :
  BaseTool.check_required (k :: rest) params w =
  if dict.contains k (heap w params) then BaseTool.check_required rest params w
  else (inr (ValueError ("Missing required parameter: " ++ k)), w).
Proof.
  simpl. unfold bind, params_contains. simpl.
  now destruct (dict.contains k (heap w params)).
Qed.

(** Where the loop stops: at the first required name that is absent. *)
Lemma check_required_schema (schema : PyDict Dict) :
  let outcome :=
    fst (BaseTool.check_required (map fst (filter (fun kv => required (snd kv)) schema))
                                 params w) in
  (outcome = inl tt /\
   forall k spec, In (k, spec) schema -> required spec = true ->
                  dict.contains k (heap w params) = true)
  \/
  (exists before k spec after,
      schema = (before ++ (k, spec) :: after)%list
      /\ required spec = true
      /\ dict.contains k (heap w params) = false
      /\ (forall k' spec', In (k', spec') before -> required spec' = true ->
                           dict.contains k' (heap w params) = true)
      /\ outcome = inr (ValueError ("Missing required parameter: " ++ k))).
Proof.
  induction schema as [|[k spec] rest IH]; cbn [filter map snd].
  - left. split; [reflexivity | intros k spec []].
  - cbv zeta in IH. destruct (required spec) eqn:Hreq; cbn [map fst].
    + rewrite check_required_cons. destruct (dict.contains k (heap w params)) eqn:Hk.
      * destruct IH as [[Hok Hall] | (before & k0 & spec0 & after & -> & H1 & H2 & H3 & H4)].
        -- left. split; [exact Hok|].
           intros k' spec' [Heq | Hin] Hr; [inversion Heq; subst; exact Hk | eauto].
        -- right. exists ((k, spec) :: before), k0, spec0, after.
           repeat split; auto.
           intros k' spec' [Heq | Hin] Hr; [inversion Heq; subst; exact Hk | eauto].
      * right. exists [], k, spec, rest. repeat split; auto.
    + destruct IH as [[Hok Hall] | (before & k0 & spec0 & after & -> & H1 & H2 & H3 & H4)].
      * left. split; [exact Hok|].
        intros k' spec' [Heq | Hin] Hr; [inversion Heq; subst; congruence | eauto].
      * right. exists ((k, spec) :: before), k0, spec0, after.
        repeat split; auto.
        intros k' spec' [Heq | Hin] Hr; [inversion Heq; subst; congruence | eauto].
Qed.

End Validation.

(** C7. Validation succeeds exactly when the parameters hold a key for every
    specification whose [required] entry is true; nothing else of a
    specification (type, enum, default) is consulted and the parameters are
    left as they are.  When it fails, the error names the first required
    key, in the order of the schema, that is absent. *)
Theorem validate_parameters_presence_only :
  forall (self : ToolObject) (params : ref) (w : World),
    let outcome := fst (BaseTool.validate_parameters self params w) in
    snd (BaseTool.validate_parameters self params w) = w
    /\ (outcome = inl true \/ exists e, outcome = inr e)
    /\ (outcome = inl true <->
        forall k spec, In (k, spec) (parameters self) -> required spec = true ->
                       dict.contains k (heap w params) = true)
    /\ (forall e, outcome = inr e ->
        exists before k spec after,
          parameters self = (before ++ (k, spec) :: after)%list
          /\ required spec = true
          /\ dict.contains k (heap w params) = false
          /\ (forall k' spec', In (k', spec') before -> required spec' = true ->
                               dict.contains k' (heap w params) = true)
          /\ e = ValueError ("Missing required parameter: " ++ k)).
Proof.
  intros self params w outcome. subst outcome.
  pose proof (check_required_world params w (BaseTool.required_params self)) as Hw.
  pose proof (check_required_schema params w (parameters self)) as Hs.
  cbv zeta in Hs.
  change (map fst (filter (fun kv => required (snd kv)) (parameters self)))
    with (BaseTool.required_params self) in Hs.
  unfold BaseTool.validate_parameters, bind, ret.
  destruct (BaseTool.check_required (BaseTool.required_params self) params w)
    as [[[]|e] w'] eqn:E; simpl in *; subst w'.
  - destruct Hs as [[_ Hall] | (before & k & spec & after & _ & _ & _ & _ & Habs)];
      [|discriminate].
    repeat split; auto. intros e He; discriminate.
  - destruct Hs as [[Habs _] | (before & k & spec & after & Hsplit & Hreq & Hk & Hbefore & He)];
      [discriminate|].
    injection He as ->.
    split; [reflexivity|]. split; [right; eauto|]. split.
    + split; [discriminate|]. intros Hall.
      rewrite (Hall k spec) in Hk; [discriminate | | exact Hreq].
      rewrite Hsplit. apply in_or_app. right. left. reflexivity.
    + intros e He. injection He as <-.
      exists before, k, spec, after. auto.
Qed.

(** ** Single dispatch *)

Section Dispatch.
Context `{Classes}.

(** The two outcomes of [execute_tool] on a registered name. *)
Lemma execute_tool_registered tool_name request w tool :
  dict.lookup tool_name (tools w) = Some tool ->
  main.execute_tool tool_name request w =
  match execute_of (tool_class tool) tool (main.parameters request) (tick w) with
  | (inl result, w2) =>
      (inl (main.mkResponse true result "Tool executed successfully"
              (total_seconds (clock w2 (ticks w2)) (clock w (ticks w)))),
       tick w2)
  | (inr e, w2) =>
      (inl (main.mkResponse false VNone ("Tool execution failed: " ++ exc_text e)
              (total_seconds (clock w2 (ticks w2)) (clock w (ticks w)))),
       with_log (log w2 ++ ["Tool execution failed: " ++ exc_text e]) (tick w2))
  end.
Proof.
  intros Hreg.
  unfold main.execute_tool, bind, global_tools, dict.contains, getitem.
  rewrite Hreg. cbn [negb]. rewrite Hreg.
  unfold try_except, datetime_now, ret, bind. cbn.
  destruct (execute_of (tool_class tool) tool (main.parameters request) (tick w))
    as [[result|e] w2]; reflexivity.
Qed.

Lemma execute_tool_unregistered tool_name request w :
  dict.lookup tool_name (tools w) = None ->
  main.execute_tool tool_name request w = (inr (HTTPException 404 "Tool not found"), w).
Proof.
  intros Hreg.
  unfold main.execute_tool, bind, global_tools, dict.contains.
  rewrite Hreg. reflexivity.
Qed.

(** One round of the batch loop. *)
Lemma batch_loop_cons request rest results w :
  main.batch_loop (request :: rest) results w =
  match dict.lookup (main.tool_name request) (tools w) with
  | None =>
      main.batch_loop rest
        (results ++ [ [ ("tool_name", main.FStr (main.tool_name request));
                        ("success", main.FBool false);
                        ("error", main.FStr "Tool not found") ] ])%list w
  | Some tool =>
      match execute_of (tool_class tool) tool (main.parameters request) (tick w) with
      | (inl result, w2) =>
          main.batch_loop rest
            (results ++ [ [ ("tool_name", main.FStr (main.tool_name request));
                            ("success", main.FBool true);
                            ("data", main.FData result);
                            ("execution_time",
                              main.FSeconds
                                (total_seconds (clock w2 (ticks w2)) (clock w (ticks w)))) ] ])%list
            (tick w2)
      | (inr e, w2) =>
          main.batch_loop rest
            (results ++ [ [ ("tool_name", main.FStr (main.tool_name request));
                            ("success", main.FBool false);
                            ("error", main.FStr (exc_text e));
                            ("execution_time",
                              main.FSeconds
                                (total_seconds (clock w2 (ticks w2)) (clock w (ticks w)))) ] ])%list
            (tick w2)
      end
  end.
Proof.
  cbn [main.batch_loop].
  unfold bind at 1. unfold global_tools at 1. unfold dict.contains.
  destruct (dict.lookup (main.tool_name request) (tools w)) as [tool|] eqn:Hreg;
    cbn [negb]; [|reflexivity].
  unfold bind, global_tools, getitem. rewrite Hreg.
  unfold try_except, datetime_now, ret, bind. cbn.
  destruct (execute_of (tool_class tool) tool (main.parameters request) (tick w))
    as [[result|e] w2]; reflexivity.
Qed.

(** The list built so far is only ever extended. *)
Lemma batch_loop_results requests :
  forall results w,
    main.batch_loop requests results w =
    (match fst (main.batch_loop requests [] w) with
     | inl items => inl (results ++ items)%list
     | inr e => inr e
     end,
     snd (main.batch_loop requests [] w)).
Proof.
  induction requests as [|request rest IH]; intros results w.
  - cbn. now rewrite app_nil_r.
  - rewrite !batch_loop_cons.
    destruct (dict.lookup (main.tool_name request) (tools w)) as [tool|].
    + destruct (execute_of (tool_class tool) tool (main.parameters request) (tick w))
        as [[result|e] w2];
        rewrite IH; rewrite (IH ([] ++ _)%list); cbn [fst snd app];
        destruct (fst (main.batch_loop rest [] (tick w2))); now rewrite <- ?app_assoc.
    + rewrite IH; rewrite (IH ([] ++ _)%list); cbn [fst snd app];
        destruct (fst (main.batch_loop rest [] w)); now rewrite <- ?app_assoc.
Qed.

(** The loop never raises and appends one dict for each request. *)
Lemma batch_loop_total requests :
  forall w, exists items,
    fst (main.batch_loop requests [] w) = inl items
    /\ length items = length requests
    /\ Forall2 (fun request item =>
                  dict.lookup "tool_name" item = Some (main.FStr (main.tool_name request)))
               requests items.
Proof.
  induction requests as [|request rest IH]; intros w.
  - exists []. cbn. auto.
  - rewrite batch_loop_cons.
    destruct (dict.lookup (main.tool_name request) (tools w)) as [tool|].
    + destruct (execute_of (tool_class tool) tool (main.parameters request) (tick w))
        as [[result|e] w2];
        (rewrite batch_loop_results; destruct (IH (tick w2)) as (items & -> & Hlen & Hall);
         cbn [fst app]; eexists; split; [reflexivity|];
         cbn [length]; split; [now rewrite Hlen | constructor; [reflexivity | exact Hall]]).
    + rewrite batch_loop_results; destruct (IH w) as (items & -> & Hlen & Hall).
      cbn [fst app]; eexists; split; [reflexivity|].
      cbn [length]; split; [now rewrite Hlen | constructor; [reflexivity | exact Hall]].
Qed.

(** A batch is processed as its first part followed by the rest, taken up
    in the world the first part leaves. *)
Lemma batch_loop_app before after :
  forall w,
    main.batch_loop (before ++ after)%list [] w =
    match main.batch_loop before [] w with
    | (inl items, w1) => main.batch_loop after items w1
    | (inr e, w1) => (inr e, w1)
    end.
Proof.
  induction before as [|request rest IH]; intros w.
  - reflexivity.
  - cbn [app]. rewrite !batch_loop_cons.
    destruct (dict.lookup (main.tool_name request) (tools w)) as [tool|].
    + destruct (execute_of (tool_class tool) tool (main.parameters request) (tick w))
        as [[result|e] w2];
        (rewrite batch_loop_results, IH;
         rewrite (batch_loop_results rest ([] ++ _)%list);
         destruct (main.batch_loop rest [] (tick w2)) as [[items|e'] w1]; cbn [fst snd];
         [|reflexivity];
         rewrite (batch_loop_results after items),
                 (batch_loop_results after (_ ++ items)%list);
         destruct (fst (main.batch_loop after [] w1)); now rewrite ?app_assoc).
    + rewrite batch_loop_results, IH.
      rewrite (batch_loop_results rest ([] ++ _)%list).
      destruct (main.batch_loop rest [] w) as [[items|e'] w1]; cbn [fst snd];
        [|reflexivity].
      rewrite (batch_loop_results after items), (batch_loop_results after (_ ++ items)%list).
      destruct (fst (main.batch_loop after [] w1)); now rewrite ?app_assoc.
Qed.

End Dispatch.

(** ** Computations that leave the store alone *)

Create HintDb frame.

Lemma same_store_refl w : same_store w w.
Proof. split; reflexivity. Qed.

Lemma same_store_trans w1 w2 w3 :
  same_store w1 w2 -> same_store w2 w3 -> same_store w1 w3.
Proof. intros [Hh Ht] [Hh' Ht']. split; congruence. Qed.

Lemma preserves_ret {A} (a : A) : preserves (ret a).
Proof. intros w. apply same_store_refl. Qed.

Lemma preserves_raise {A} (e : PyException) : preserves (@raise A e).
Proof. intros w. apply same_store_refl. Qed.

Lemma preserves_bind {A B} (m : M A) (k : A -> M B) :
  preserves m -> (forall a, preserves (k a)) -> preserves (bind m k).
Proof.
  intros Hm Hk w. unfold bind. specialize (Hm w).
  destruct (m w) as [[a|e] w1]; cbn [snd] in *; [|exact Hm].
  eapply same_store_trans; [exact Hm | apply Hk].
Qed.

Lemma preserves_try {A} (body : M A) (handler : PyException -> M A) :
  preserves body -> (forall e, preserves (handler e)) -> preserves (try_except body handler).
Proof.
  intros Hb Hh w. unfold try_except. specialize (Hb w).
  destruct (body w) as [[a|e] w1]; cbn [snd] in *; [exact Hb|].
  eapply same_store_trans; [exact Hb | apply Hh].
Qed.

Lemma preserves_global_tools : preserves global_tools.
Proof. intros w. apply same_store_refl. Qed.

Lemma preserves_params_get parameters key default :
  preserves (params_get parameters key default).
Proof. intros w. apply same_store_refl. Qed.

Lemma preserves_params_contains key parameters :
  preserves (params_contains key parameters).
Proof. intros w. apply same_store_refl. Qed.

Lemma preserves_getitem {V} (d : PyDict V) key : preserves (getitem d key).
Proof. unfold getitem. destruct (dict.lookup key d); intros w; apply same_store_refl. Qed.

Lemma preserves_datetime_now : preserves datetime_now.
Proof. intros w. split; reflexivity. Qed.

Lemma preserves_logger_error line : preserves (logger_error line).
Proof. intros w. split; reflexivity. Qed.

Lemma preserves_slice_to {A} (l : list A) stop : preserves (slice_to l stop).
Proof. destruct stop; intros w; apply same_store_refl. Qed.

#[export] Hint Resolve preserves_ret preserves_raise preserves_global_tools
  preserves_params_get preserves_params_contains preserves_getitem
  preserves_datetime_now preserves_logger_error preserves_slice_to : frame.

Ltac frame :=
  repeat first
    [ solve [auto with frame]
    | apply preserves_bind; [|intro]
    | apply preserves_try; [|intro] ].

Lemma preserves_check_required names parameters :
  preserves (BaseTool.check_required names parameters).
Proof.
  induction names as [|k rest IH]; cbn [BaseTool.check_required]; frame.
  destruct (negb a); [frame | exact IH].
Qed.

Lemma preserves_validate_parameters self parameters :
  preserves (BaseTool.validate_parameters self parameters).
Proof.
  unfold BaseTool.validate_parameters. frame. apply preserves_check_required.
Qed.

#[export] Hint Resolve preserves_check_required preserves_validate_parameters : frame.

(** [WebSearchTool.execute] reads its parameters and writes to the log. *)
Lemma WebSearchTool_read_only : read_only WebSearchTool.execute.
Proof.
  intros self parameters.
  unfold WebSearchTool.execute, WebSearchTool._perform_search. frame.
Qed.

(** What [WebSearchTool.execute] returns or raises is decided by the
    content of the parameters. *)
Lemma WebSearchTool_pure : pure_method WebSearchTool.execute.
Proof.
  intros self p1 p2 w1 w2 Hsame.
  unfold WebSearchTool.execute, WebSearchTool._perform_search,
    bind, try_except, params_get, slice_to, ret, raise, logger_error.
  cbn [fst snd]. rewrite Hsame.
  destruct (dict.get (heap w2 p2) "num_results" (VInt 10)); reflexivity.
Qed.

Lemma BaseTool_execute_read_only : read_only BaseTool.execute.
Proof. intros self parameters. apply preserves_ret. Qed.

Lemma service_classes_read_only (others : ToolClass -> Method) :
  (forall c, c <> WebSearchTool -> read_only (others c)) ->
  forall c, read_only (service_classes others c).
Proof.
  intros Hothers c. destruct c; cbn [service_classes];
    solve [apply WebSearchTool_read_only | apply Hothers; discriminate].
Qed.

Section DispatchFrame.
Context `{Classes}.
Hypothesis methods_read_only : forall c, read_only (execute_of c).

Lemma preserves_execute_with_validation self parameters :
  preserves (BaseTool.execute_with_validation self parameters).
Proof.
  unfold BaseTool.execute_with_validation. frame.
  apply methods_read_only.
Qed.

Lemma preserves_execute_tool tool_name request :
  preserves (main.execute_tool tool_name request).
Proof.
  unfold main.execute_tool. frame.
  destruct (negb (dict.contains tool_name a)); frame.
  apply methods_read_only.
Qed.

End DispatchFrame.

(** ** The dispatcher: [execute_tool] *)

(** C1 (the code departs from the statement).  A request for [web_search]
    whose parameters omit the required [query]: the validation of the tool,
    were it called, would reject it, and so does
    [execute_with_validation]; [execute_tool] calls [execute] directly and
    answers with a success envelope built on the missing query. *)
Theorem dispatch_skips_validation :
  let w := sample.world [] in
  let request := sample.request "web_search" in
  dict.lookup "web_search" (tools w) = Some WebSearchTool.__init__
  /\ fst (BaseTool.validate_parameters WebSearchTool.__init__ (main.parameters request) w)
     = inr (ValueError "Missing required parameter: query")
  /\ fst (@BaseTool.execute_with_validation sample.classes
            WebSearchTool.__init__ (main.parameters request) w)
     = inr (ValueError "Missing required parameter: query")
  /\ fst (@main.execute_tool sample.classes "web_search" request w)
     = inl (main.mkResponse true
              (VDict
                 [ ("query", VNone);
                   ("search_type", VStr "web");
                   ("num_results", VInt 2);
                   ("results",
                     VList
                       [ VDict [ ("title", VStr "搜索结果 1 - None");
                                 ("url", VStr "https://example.com/result1");
                                 ("snippet", VStr "这是关于 None 的第一个搜索结果...");
                                 ("source", VStr "example.com") ];
                         VDict [ ("title", VStr "搜索结果 2 - None");
                                 ("url", VStr "https://example.com/result2");
                                 ("snippet", VStr "这是关于 None 的第二个搜索结果...");
                                 ("source", VStr "example.com") ] ]);
                   ("timestamp", VStr "2024-01-01T00:00:00Z") ])
              "Tool executed successfully"
              (1500 # 1000000)).
Proof. repeat split; reflexivity. Qed.

(** C2. On a registered name [execute_tool] always returns an envelope:
    it raises nothing, and when the tool's [execute] raises, the envelope
    has [success = false]. *)
Theorem dispatch_never_raises `{Classes} :
  forall tool_name request w tool,
    dict.lookup tool_name (tools w) = Some tool ->
    exists response w',
      main.execute_tool tool_name request w = (inl response, w')
      /\ (forall e w2,
            execute_of (tool_class tool) tool (main.parameters request) (tick w) = (inr e, w2) ->
            main.success response = false).
Proof.
  intros tool_name request w tool Hreg.
  rewrite (execute_tool_registered _ _ _ _ Hreg).
  destruct (execute_of (tool_class tool) tool (main.parameters request) (tick w))
    as [[result|e] w2]; do 2 eexists; (split; [reflexivity|]); intros e' w2' Heq;
    [discriminate | reflexivity].
Qed.

Lemma dispatch_never_raises_witness :
  let w := sample.world [("query", VStr "rocq"); ("num_results", VStr "two")] in
  let request := sample.request "web_search" in
  dict.lookup "web_search" (tools w) = Some WebSearchTool.__init__
  /\ exists response w',
      @main.execute_tool sample.classes "web_search" request w = (inl response, w')
      /\ (forall e w2,
            WebSearchTool.execute WebSearchTool.__init__ (main.parameters request) (tick w)
            = (inr e, w2) ->
            main.success response = false).
Proof.
  split; [reflexivity|].
  apply (@dispatch_never_raises sample.classes "web_search"
           (sample.request "web_search")
           (sample.world [("query", VStr "rocq"); ("num_results", VStr "two")])
           WebSearchTool.__init__).
  reflexivity.
Defined.

(** C3 (as stated, refuted).  [web_search] asked for ["two"] results: the
    slice raises a [TypeError], and the envelope's message is not the text
    of that error but the text behind a fixed prefix. *)
Lemma verbatim_message_counterexample :
  let w := sample.world [("query", VStr "rocq"); ("num_results", VStr "two")] in
  let request := sample.request "web_search" in
  let e := TypeError "slice indices must be integers or None or have an __index__ method" in
  dict.lookup "web_search" (tools w) = Some WebSearchTool.__init__
  /\ fst (WebSearchTool.execute WebSearchTool.__init__ (main.parameters request) (tick w))
     = inr e
  /\ fst (@main.execute_tool sample.classes "web_search" request w)
     = inl (main.mkResponse false VNone
              "Tool execution failed: slice indices must be integers or None or have an __index__ method"
              (1500 # 1000000))
  /\ "Tool execution failed: slice indices must be integers or None or have an __index__ method"
     <> exc_text e.
Proof. repeat split; try reflexivity. discriminate. Qed.

(** C3 (amended).  When [execute] raises [e] on a registered tool, the
    envelope has [success = false], no data, and the message
    ["Tool execution failed: "] followed by [str(e)]. *)
Theorem dispatch_failure_message `{Classes} :
  forall tool_name request w tool e w2,
    dict.lookup tool_name (tools w) = Some tool ->
    execute_of (tool_class tool) tool (main.parameters request) (tick w) = (inr e, w2) ->
    exists t w',
      main.execute_tool tool_name request w
      = (inl (main.mkResponse false VNone ("Tool execution failed: " ++ exc_text e) t), w').
Proof.
  intros tool_name request w tool e w2 Hreg Hraise.
  rewrite (execute_tool_registered _ _ _ _ Hreg), Hraise.
  do 2 eexists. reflexivity.
Qed.

Lemma dispatch_failure_message_witness :
  let w := sample.world [("query", VStr "rocq"); ("num_results", VStr "two")] in
  let request := sample.request "web_search" in
  let e := TypeError "slice indices must be integers or None or have an __index__ method" in
  dict.lookup "web_search" (tools w) = Some WebSearchTool.__init__
  /\ WebSearchTool.execute WebSearchTool.__init__ (main.parameters request) (tick w)
     = (inr e, with_log ["Web search failed: " ++ exc_text e] (tick w))
  /\ exists t w',
      @main.execute_tool sample.classes "web_search" request w
      = (inl (main.mkResponse false VNone ("Tool execution failed: " ++ exc_text e) t), w').
Proof.
  split; [reflexivity|]. split; [reflexivity|].
  apply (@dispatch_failure_message sample.classes "web_search"
           (sample.request "web_search")
           (sample.world [("query", VStr "rocq"); ("num_results", VStr "two")])
           WebSearchTool.__init__
           (TypeError "slice indices must be integers or None or have an __index__ method")
           (with_log
              ["Web search failed: slice indices must be integers or None or have an __index__ method"]
              (tick (sample.world [("query", VStr "rocq"); ("num_results", VStr "two")]))));
    reflexivity.
Defined.



(** ** The batch dispatcher: [execute_batch_tools] *)

Section Batch.
Context `{Classes}.

Lemma execute_batch_tools_loop requests w :
  main.execute_batch_tools requests w =
  (match fst (main.batch_loop requests [] w) with
   | inl items => inl (main.mkBatch items)
   | inr e => inr e
   end,
   snd (main.batch_loop requests [] w)).
Proof.
  unfold main.execute_batch_tools, bind, ret.
  now destruct (main.batch_loop requests [] w) as [[items|e] w1].
Qed.

(** The dict appended for a request, by what happens to it in the world
    [w] in which its turn comes. *)
Lemma batch_loop_single request w :
  exists item,
    fst (main.batch_loop [request] [] w) = inl [item]
    /\ (dict.lookup (main.tool_name request) (tools w) = None ->
        item = [ ("tool_name", main.FStr (main.tool_name request));
                 ("success", main.FBool false);
                 ("error", main.FStr "Tool not found") ])
    /\ (forall tool e w2,
          dict.lookup (main.tool_name request) (tools w) = Some tool ->
          execute_of (tool_class tool) tool (main.parameters request) (tick w) = (inr e, w2) ->
          item = [ ("tool_name", main.FStr (main.tool_name request));
                   ("success", main.FBool false);
                   ("error", main.FStr (exc_text e));
                   ("execution_time",
                     main.FSeconds
                       (total_seconds (clock w2 (ticks w2)) (clock w (ticks w)))) ]).
Proof.
  rewrite batch_loop_cons.
  destruct (dict.lookup (main.tool_name request) (tools w)) as [tool|].
  - destruct (execute_of (tool_class tool) tool (main.parameters request) (tick w))
      as [[result|e] w2] eqn:Hrun; eexists; (split; [reflexivity|]);
      (split; [discriminate|]); intros tool' e' w2' Htool Hrun';
      injection Htool as <-; rewrite Hrun in Hrun'; [discriminate|].
    injection Hrun' as <- <-. reflexivity.
  - eexists. split; [reflexivity|]. split; [reflexivity|].
    intros tool e w2 Htool; discriminate.
Qed.

End Batch.

(** C4. In a batch, a request whose name is not in the registry yields
    exactly the three entries [tool_name], [success = false] and
    [error = "Tool not found"], with no [execution_time]; a request whose
    tool is found and whose [execute] raises yields [error] and
    [execution_time] both.  The registry and the clock are those of the
    world [w1] in which the request's turn comes. *)
Theorem batch_not_found_versus_failed `{Classes} :
  forall before request after w,
    let w1 := snd (main.execute_batch_tools before w) in
    exists out item,
      fst (main.execute_batch_tools (before ++ request :: after)%list w) = inl out
      /\ nth_error (main.results out) (length before) = Some item
      /\ (dict.lookup (main.tool_name request) (tools w1) = None ->
          item = [ ("tool_name", main.FStr (main.tool_name request));
                   ("success", main.FBool false);
                   ("error", main.FStr "Tool not found") ]
          /\ dict.contains "execution_time" item = false)
      /\ (forall tool e w2,
            dict.lookup (main.tool_name request) (tools w1) = Some tool ->
            execute_of (tool_class tool) tool (main.parameters request) (tick w1) = (inr e, w2) ->
            item = [ ("tool_name", main.FStr (main.tool_name request));
                     ("success", main.FBool false);
                     ("error", main.FStr (exc_text e));
                     ("execution_time",
                       main.FSeconds
                         (total_seconds (clock w2 (ticks w2)) (clock w1 (ticks w1)))) ]
            /\ dict.contains "error" item = true
            /\ dict.contains "execution_time" item = true).
Proof.
  intros before request after w w1. subst w1.
  rewrite !execute_batch_tools_loop. cbn [snd].
  rewrite batch_loop_app.
  destruct (batch_loop_total before w) as (items1 & Hrun1 & Hlen1 & _).
  destruct (main.batch_loop before [] w) as [r1 w1]. cbn [fst snd] in *. subst r1.
  change (request :: after) with ([request] ++ after)%list.
  rewrite batch_loop_results, batch_loop_app.
  destruct (batch_loop_single request w1) as (item & Hrun & Hnone & Hfail).
  destruct (main.batch_loop [request] [] w1) as [r2 w2']. cbn [fst snd] in *. subst r2.
  rewrite batch_loop_results.
  destruct (batch_loop_total after w2') as (items3 & -> & _).
  cbn [fst]. exists (main.mkBatch (items1 ++ [item] ++ items3)), item.
  split; [reflexivity|]. split.
  - cbn [main.results]. rewrite nth_error_app2, Hlen1, Nat.sub_diag by (rewrite Hlen1; auto).
    reflexivity.
  - split.
    + intros Hnot. rewrite (Hnone Hnot). split; reflexivity.
    + intros tool e w2 Htool Hraise. rewrite (Hfail tool e w2 Htool Hraise).
      repeat split; reflexivity.
Qed.

Lemma batch_not_found_versus_failed_witness :
  let w := sample.world [("query", VStr "rocq"); ("num_results", VStr "two")] in
  let e := TypeError "slice indices must be integers or None or have an __index__ method" in
  exists out missing failed,
    fst (@main.execute_batch_tools sample.classes
           ([sample.request "web_search"] ++ sample.request "translate"
              :: [sample.request "web_search"])%list w) = inl out
    /\ nth_error (main.results out) 1 = Some missing
    /\ missing = [ ("tool_name", main.FStr "translate");
                   ("success", main.FBool false);
                   ("error", main.FStr "Tool not found") ]
    /\ dict.contains "execution_time" missing = false
    /\ nth_error (main.results out) 0 = Some failed
    /\ failed = [ ("tool_name", main.FStr "web_search");
                  ("success", main.FBool false);
                  ("error", main.FStr (exc_text e));
                  ("execution_time", main.FSeconds (1500 # 1000000)) ]
    /\ dict.contains "error" failed = true
    /\ dict.contains "execution_time" failed = true.
Proof.
  intros w e.
  destruct (@batch_not_found_versus_failed sample.classes
              [sample.request "web_search"] (sample.request "translate")
              [sample.request "web_search"] w)
    as (out & missing & Hout & Hmissing & Hnone & _).
  destruct (@batch_not_found_versus_failed sample.classes
              [] (sample.request "web_search")
              [sample.request "translate"; sample.request "web_search"] w)
    as (out' & failed & Hout' & Hfailed & _ & Hfail).
  cbn [app] in Hout, Hout'. rewrite Hout in Hout'. injection Hout' as <-.
  exists out, missing, failed.
  split; [exact Hout|]. split; [exact Hmissing|].
  destruct Hnone as [-> Hno]; [reflexivity|].
  split; [reflexivity|]. split; [exact Hno|]. split; [exact Hfailed|].
  destruct (Hfail WebSearchTool.__init__ e
              (with_log ["Web search failed: " ++ exc_text e] (tick w)))
    as (-> & Herr & Htime); [reflexivity | reflexivity |].
  split; [reflexivity|]. split; [exact Herr | exact Htime].
Defined.

(** C5. A batch never raises; it returns one dict for each request, at the
    same position and carrying the request's [tool_name]; the empty batch
    returns the empty list; and however the first requests of a batch fared,
    the ones after them are processed as a batch of their own, taken up in
    the world the first ones leave. *)
Theorem batch_one_result_per_request `{Classes} :
  forall requests w,
    exists out,
      fst (main.execute_batch_tools requests w) = inl out
      /\ length (main.results out) = length requests
      /\ (forall i request,
            nth_error requests i = Some request ->
            exists item,
              nth_error (main.results out) i = Some item
              /\ dict.lookup "tool_name" item = Some (main.FStr (main.tool_name request)))
      /\ main.execute_batch_tools [] w = (inl (main.mkBatch []), w)
      /\ (forall before after,
            requests = (before ++ after)%list ->
            exists out1 out2,
              fst (main.execute_batch_tools before w) = inl out1
              /\ fst (main.execute_batch_tools after
                        (snd (main.execute_batch_tools before w))) = inl out2
              /\ main.results out = (main.results out1 ++ main.results out2)%list).
Proof.
  intros requests w.
  destruct (batch_loop_total requests w) as (items & Hrun & Hlen & Hall).
  exists (main.mkBatch items).
  rewrite execute_batch_tools_loop, Hrun. cbn [fst main.results].
  split; [reflexivity|]. split; [exact Hlen|]. split; [|split; [reflexivity|]].
  - clear Hrun Hlen. induction Hall as [|request item rest items' Hname Hrest IH];
      intros i request' Hnth.
    + destruct i; discriminate.
    + destruct i as [|i]; cbn in Hnth |- *.
      * injection Hnth as <-. eauto.
      * eauto.
  - intros before after ->.
    rewrite !execute_batch_tools_loop. cbn [snd].
    rewrite batch_loop_app in Hrun.
    destruct (batch_loop_total before w) as (items1 & Hrun1 & _).
    destruct (main.batch_loop before [] w) as [r1 w1]. cbn [fst snd] in *. subst r1.
    rewrite batch_loop_results in Hrun.
    destruct (batch_loop_total after w1) as (items2 & Hrun2 & _).
    rewrite Hrun2 in Hrun |- *. cbn [fst] in Hrun. injection Hrun as <-.
    exists (main.mkBatch items1), (main.mkBatch items2). auto.
Qed.

(** A failure, a success and an unknown name, in this order. *)
Example mixed_batch_results :
  fst (@main.execute_batch_tools sample.classes sample.mixed_batch
         (sample.batch_world sample.mixed_bodies))
  = inl (main.mkBatch
           [ [ ("tool_name", main.FStr "web_search");
               ("success", main.FBool false);
               ("error",
                 main.FStr
                   "slice indices must be integers or None or have an __index__ method");
               ("execution_time", main.FSeconds (1500 # 1000000)) ];
             [ ("tool_name", main.FStr "web_search");
               ("success", main.FBool true);
               ("data",
                 main.FData
                   (VDict [ ("query", VStr "rocq");
                            ("search_type", VStr "web");
                            ("num_results", VInt 0);
                            ("results", VList []);
                            ("timestamp", VStr "2024-01-01T00:00:00Z") ]));
               ("execution_time", main.FSeconds (1500 # 1000000)) ];
             [ ("tool_name", main.FStr "translate");
               ("success", main.FBool false);
               ("error", main.FStr "Tool not found") ] ]).
Proof. reflexivity. Qed.

(** ** The registry *)

Section Registry.
Context {V : Type}.

Lemma lookup_unique_key (entries : list (string * V)) :
  NoDup (map fst entries) ->
  forall n v, In (n, v) entries -> dict.lookup n entries = Some v.
Proof.
  induction entries as [|[k v0] rest IH]; intros Hnodup n v Hin; [destruct Hin|].
  cbn [map fst] in Hnodup. inversion Hnodup as [|? ? Hnotin Hrest]; subst.
  cbn [dict.lookup]. destruct Hin as [Heq | Hin].
  - injection Heq as -> ->. now rewrite String.eqb_refl.
  - destruct (String.eqb_spec k n) as [->|Hne]; [|now apply IH].
    exfalso. apply Hnotin. change n with (fst (n, v)). now apply in_map.
Qed.

Lemma lookup_display_unique (entries : list (string * V)) :
  NoDup (map fst entries) ->
  forall n v, In (n, v) entries -> dict.lookup n (dict.display entries) = Some v.
Proof.
  intros Hnodup n v Hin. rewrite lookup_display.
  apply lookup_unique_key.
  - rewrite map_rev. now apply NoDup_rev.
  - now apply in_rev in Hin.
Qed.

End Registry.

(** C8 (as stated, refuted).  The registry is a dict, and storing a tool
    under a name it already holds raises nothing: the new tool takes the
    place of the old one.  So it is in a dict display that repeats a name,
    and so it would be for an assignment [tools[name] = tool]. *)
Lemma duplicate_name_overwrites :
  let old := WebSearchTool.__init__ in
  let new := DataAnalysisTool.__init__ in
  old <> new
  /\ dict.display [("web_search", old); ("web_search", new)] = [("web_search", new)]
  /\ dict.lookup "web_search" (main.tools_display sample.trend_analysis) = Some old
  /\ dict.lookup "web_search"
       (dict.setitem "web_search" new (main.tools_display sample.trend_analysis))
     = Some new.
Proof. repeat split; try reflexivity. discriminate. Qed.

(** C8 (amended).  The registry is built by one dict display, which cannot
    fail: under every name the display holds the tool of the last entry
    given for that name, and when the names are distinct every entry is
    found under its name.  The five names of [main.py] each resolve to the
    tool built for them. *)
Theorem registry_display_lookup :
  forall (entries : list (string * ToolObject)) (trend_analysis : ToolObject),
    (forall n, dict.lookup n (dict.display entries) = dict.lookup n (rev entries))
    /\ (NoDup (map fst entries) ->
        forall n tool, In (n, tool) entries ->
                       dict.lookup n (dict.display entries) = Some tool)
    /\ (let registry := main.tools_display trend_analysis in
        dict.lookup "web_search" registry = Some WebSearchTool.__init__
        /\ dict.lookup "data_analysis" registry = Some DataAnalysisTool.__init__
        /\ dict.lookup "report_generation" registry = Some ReportGenerationTool.__init__
        /\ dict.lookup "competitor_analysis" registry = Some CompetitorAnalysisTool.__init__
        /\ dict.lookup "trend_analysis" registry = Some trend_analysis
        /\ forall w, main.bind_tools trend_analysis w = (inl tt, with_tools registry w)).
Proof.
  intros entries trend_analysis. split; [|split].
  - intros n. apply lookup_display.
  - apply lookup_display_unique.
  - repeat split; reflexivity.
Qed.

(** ** Repeating a dispatch, and what a dispatch leaves behind *)

(** C9. For a registered tool whose [execute] is a function of the content
    of its parameters, two dispatches under the same name with parameters
    of equal content, in whatever two worlds that hold the tool under that
    name, give envelopes with the same [success], [data] and [message]. *)
Theorem dispatch_twice_pure_tool `{Classes} :
  forall tool_name tool request1 request2 w1 w2,
    dict.lookup tool_name (tools w1) = Some tool ->
    dict.lookup tool_name (tools w2) = Some tool ->
    pure_method (execute_of (tool_class tool)) ->
    heap w1 (main.parameters request1) = heap w2 (main.parameters request2) ->
    exists r1 r2,
      fst (main.execute_tool tool_name request1 w1) = inl r1
      /\ fst (main.execute_tool tool_name request2 w2) = inl r2
      /\ main.success r1 = main.success r2
      /\ main.data r1 = main.data r2
      /\ main.message r1 = main.message r2.
Proof.
  intros tool_name tool request1 request2 w1 w2 Hreg1 Hreg2 Hpure Hsame.
  rewrite (execute_tool_registered _ _ _ _ Hreg1), (execute_tool_registered _ _ _ _ Hreg2).
  pose proof (Hpure tool (main.parameters request1) (main.parameters request2)
                (tick w1) (tick w2) Hsame) as Hout.
  destruct (execute_of (tool_class tool) tool (main.parameters request1) (tick w1))
    as [[v1|e1] w1'];
    destruct (execute_of (tool_class tool) tool (main.parameters request2) (tick w2))
      as [[v2|e2] w2'];
    cbn [fst] in Hout; try discriminate; injection Hout as <-;
    do 2 eexists; repeat split; reflexivity.
Qed.

(** The same request dispatched twice in a row. *)
Lemma dispatch_twice_pure_tool_witness :
  let w1 := sample.world [("query", VStr "rocq")] in
  let request := sample.request "web_search" in
  let w2 := snd (@main.execute_tool sample.classes "web_search" request w1) in
  dict.lookup "web_search" (tools w1) = Some WebSearchTool.__init__
  /\ dict.lookup "web_search" (tools w2) = Some WebSearchTool.__init__
  /\ pure_method WebSearchTool.execute
  /\ heap w1 (main.parameters request) = heap w2 (main.parameters request)
  /\ exists r1 r2,
      fst (@main.execute_tool sample.classes "web_search" request w1) = inl r1
      /\ fst (@main.execute_tool sample.classes "web_search" request w2) = inl r2
      /\ main.success r1 = main.success r2
      /\ main.data r1 = main.data r2
      /\ main.message r1 = main.message r2.
Proof.
  intros w1 request w2.
  split; [reflexivity|]. split; [reflexivity|].
  split; [exact WebSearchTool_pure|]. split; [reflexivity|].
  apply (@dispatch_twice_pure_tool sample.classes "web_search" WebSearchTool.__init__
           request request w1 w2);
    [reflexivity | reflexivity | exact WebSearchTool_pure | reflexivity].
Defined.



(** The hypothesis on the other classes is needed: a tool that records a
    default in the dict it is given changes the caller's parameters. *)
Example writing_tool_changes_parameters :
  let w := sample.world [("query", VStr "rocq")] in
  let request := sample.request "web_search" in
  heap (snd (@main.execute_tool sample.writing_classes "web_search" request w))
       (main.parameters request)
  = [("query", VStr "rocq"); ("num_results", VInt 10)].
Proof. reflexivity. Qed.

(* ================================================================= *)
(** * Further properties of the handlers and the tools *)

(** ** Names that are not registered *)

(** X1. [execute_tool] and [get_tool_info] raise exactly on the names the
    registry does not hold; what they raise is the 404 [HTTPException], and
    the world is left untouched: the clock is not read, nothing is logged,
    no tool runs. *)
Theorem handlers_reject_unregistered_names `{Classes} :
  forall tool_name request w,
    (dict.lookup tool_name (tools w) = None ->
     main.execute_tool tool_name request w = (inr (HTTPException 404 "Tool not found"), w)
     /\ main.get_tool_info tool_name w = (inr (HTTPException 404 "Tool not found"), w))
    /\ (forall e w',
          main.execute_tool tool_name request w = (inr e, w') ->
          dict.lookup tool_name (tools w) = None)
    /\ (forall e w',
          main.get_tool_info tool_name w = (inr e, w') ->
          dict.lookup tool_name (tools w) = None).
Proof.
  intros tool_name request w. split; [|split].
  - intros Hnone. split; [now apply execute_tool_unregistered|].
    unfold main.get_tool_info, bind, global_tools, dict.contains.
    now rewrite Hnone.
  - intros e w' Hrun.
    destruct (dict.lookup tool_name (tools w)) as [tool|] eqn:Hreg; [|reflexivity].
    rewrite (execute_tool_registered _ _ _ _ Hreg) in Hrun.
    destruct (execute_of (tool_class tool) tool (main.parameters request) (tick w))
      as [[v|e'] w2]; discriminate.
  - intros e w' Hrun.
    destruct (dict.lookup tool_name (tools w)) as [tool|] eqn:Hreg; [|reflexivity].
    unfold main.get_tool_info, bind, global_tools, dict.contains, getitem in Hrun.
    rewrite Hreg in Hrun. cbn in Hrun. rewrite Hreg in Hrun. discriminate.
Qed.

(** ** What a dispatch reads and logs *)

(** X2. A dispatch on a registered name reads the clock once before and
    once after the tool ran, and reports the difference of the two
    readings.  When the tool returned it logs nothing; when the tool
    raised it appends one line to the log, which is the message of the
    envelope. *)
Theorem dispatch_logs_its_failure_message `{Classes} :
  forall tool_name request w tool,
    dict.lookup tool_name (tools w) = Some tool ->
    let w2 := snd (execute_of (tool_class tool) tool (main.parameters request) (tick w)) in
    exists response w',
      main.execute_tool tool_name request w = (inl response, w')
      /\ main.execution_time response
         = total_seconds (clock w2 (ticks w2)) (clock w (ticks w))
      /\ ticks w' = S (ticks w2)
      /\ (main.success response = true -> log w' = log w2)
      /\ (main.success response = false ->
          log w' = (log w2 ++ [main.message response])%list).
Proof.
  intros tool_name request w tool Hreg w2. subst w2.
  rewrite (execute_tool_registered _ _ _ _ Hreg).
  destruct (execute_of (tool_class tool) tool (main.parameters request) (tick w))
    as [[v|e] w2]; cbn [snd]; do 2 eexists; (split; [reflexivity|]);
    cbn; repeat split; auto; discriminate.
Qed.

Lemma dispatch_logs_its_failure_message_witness :
  let w := sample.world [("query", VStr "rocq"); ("num_results", VStr "two")] in
  let request := sample.request "web_search" in
  dict.lookup "web_search" (tools w) = Some WebSearchTool.__init__
  /\ exists response w',
      @main.execute_tool sample.classes "web_search" request w = (inl response, w')
      /\ main.success response = false
      /\ log w'
         = [ "Web search failed: slice indices must be integers or None or have an __index__ method";
             main.message response ].
Proof.
  intros w request. split; [reflexivity|].
  destruct (@dispatch_logs_its_failure_message sample.classes "web_search" request w
              WebSearchTool.__init__ eq_refl)
    as (response & w' & Hrun & _ & _ & _ & Hlog).
  exists response, w'. split; [exact Hrun|].
  assert (Hfail : main.success response = false).
  { assert (Heval : fst (@main.execute_tool sample.classes "web_search" request w)
                    = inl (main.mkResponse false VNone
                             "Tool execution failed: slice indices must be integers or None or have an __index__ method"
                             (1500 # 1000000))) by reflexivity.
    rewrite Hrun in Heval. injection Heval as ->. reflexivity. }
  split; [exact Hfail|]. rewrite (Hlog Hfail). reflexivity.
Defined.

(** ** Batch and single dispatch side by side *)

(** X3. A batch of one request for a registered tool and the single
    dispatch of that request under the same name agree: same [success],
    same execution time, the same data on success; on failure the batch
    reports [str(e)] as [error] where the envelope's message is that text
    behind the prefix, and the single dispatch logs its message where the
    batch logs nothing.  Apart from that log line the two leave the same
    world. *)
Theorem batch_of_one_agrees_with_dispatch `{Classes} :
  forall request w tool,
    dict.lookup (main.tool_name request) (tools w) = Some tool ->
    exists response w1 item w2,
      main.execute_tool (main.tool_name request) request w = (inl response, w1)
      /\ main.execute_batch_tools [request] w = (inl (main.mkBatch [item]), w2)
      /\ dict.lookup "tool_name" item = Some (main.FStr (main.tool_name request))
      /\ dict.lookup "success" item = Some (main.FBool (main.success response))
      /\ dict.lookup "execution_time" item
         = Some (main.FSeconds (main.execution_time response))
      /\ (main.success response = true ->
          dict.lookup "data" item = Some (main.FData (main.data response))
          /\ dict.lookup "error" item = None
          /\ w1 = w2)
      /\ (main.success response = false ->
          exists text,
            dict.lookup "error" item = Some (main.FStr text)
            /\ main.message response = "Tool execution failed: " ++ text
            /\ dict.lookup "data" item = None
            /\ w1 = with_log (log w2 ++ [main.message response]) w2).
Proof.
  intros request w tool Hreg.
  rewrite (execute_tool_registered _ _ _ _ Hreg).
  unfold main.execute_batch_tools, bind. rewrite batch_loop_cons, Hreg.
  destruct (execute_of (tool_class tool) tool (main.parameters request) (tick w))
    as [[v|e] w'].
  - do 4 eexists. cbn. repeat split; try reflexivity; discriminate.
  - do 4 eexists. cbn. repeat split; try reflexivity; try discriminate.
    intros _. exists (exc_text e). repeat split; reflexivity.
Qed.

Lemma batch_of_one_agrees_with_dispatch_witness :
  let w := sample.world [("query", VStr "rocq"); ("num_results", VStr "two")] in
  let request := sample.request "web_search" in
  dict.lookup (main.tool_name request) (tools w) = Some WebSearchTool.__init__
  /\ exists response item,
      fst (@main.execute_tool sample.classes "web_search" request w) = inl response
      /\ fst (@main.execute_batch_tools sample.classes [request] w)
         = inl (main.mkBatch [item])
      /\ dict.lookup "success" item = Some (main.FBool (main.success response))
      /\ dict.lookup "execution_time" item
         = Some (main.FSeconds (main.execution_time response)).
Proof.
  intros w request. split; [reflexivity|].
  destruct (@batch_of_one_agrees_with_dispatch sample.classes request w
              WebSearchTool.__init__ eq_refl)
    as (response & w1 & item & w2 & Hsingle & Hbatch & _ & Hsuccess & Htime & _).
  exists response, item.
  change (main.tool_name request) with "web_search" in Hsingle.
  rewrite Hsingle, Hbatch. repeat split; assumption.
Defined.

(** ** What a batch leaves behind *)

Section BatchFrame.
Context `{Classes}.
Hypothesis methods_read_only : forall c, read_only (execute_of c).

Lemma preserves_batch_loop requests :
  forall results, preserves (main.batch_loop requests results).
Proof.
  induction requests as [|request rest IH]; intros results;
    cbn [main.batch_loop]; frame.
  destruct (negb (dict.contains (main.tool_name request) a)); [apply IH|].
  frame; try apply IH. apply methods_read_only.
Qed.

End BatchFrame.

(** X4. When no [execute] method writes to a parameters dict, to the
    registry or to a tool object, a batch leaves them all as they were. *)
Theorem batch_leaves_store_unchanged `{Classes} :
  (forall c, read_only (execute_of c)) ->
  forall requests w,
    same_store w (snd (main.execute_batch_tools requests w)).
Proof.
  intros Hall requests.
  change (preserves (main.execute_batch_tools requests)).
  unfold main.execute_batch_tools. frame. now apply preserves_batch_loop.
Qed.

Lemma batch_leaves_store_unchanged_witness :
  (forall c, read_only (@execute_of sample.classes c))
  /\ same_store (sample.batch_world sample.mixed_bodies)
       (snd (@main.execute_batch_tools sample.classes sample.mixed_batch
               (sample.batch_world sample.mixed_bodies))).
Proof.
  assert (Hall : forall c, read_only (@execute_of sample.classes c)).
  { apply service_classes_read_only. intros c _. exact BaseTool_execute_read_only. }
  split; [exact Hall|].
  apply (@batch_leaves_store_unchanged sample.classes Hall).
Defined.

(** X5. A batch in which no name is registered answers each request with
    the not-found dict and leaves the whole world untouched: the clock is
    not read and no tool runs. *)
Theorem batch_of_unknown_names `{Classes} :
  forall requests w,
    Forall (fun request => dict.lookup (main.tool_name request) (tools w) = None) requests ->
    main.execute_batch_tools requests w
    = (inl (main.mkBatch (map not_found_item requests)), w).
Proof.
  intros requests w Hall.
  unfold main.execute_batch_tools, bind.
  assert (Hloop : forall results,
             main.batch_loop requests results w
             = (inl (results ++ map not_found_item requests)%list, w)).
  { induction Hall as [|request rest Hnone Hrest IH]; intros results.
    - cbn. now rewrite app_nil_r.
    - rewrite batch_loop_cons, Hnone, IH. cbn [map].
      now rewrite <- app_assoc. }
  rewrite Hloop. reflexivity.
Qed.

Lemma batch_of_unknown_names_witness :
  let w := sample.world [] in
  let requests := [sample.request "translate"; sample.request "summarize"] in
  Forall (fun request => dict.lookup (main.tool_name request) (tools w) = None) requests
  /\ @main.execute_batch_tools sample.classes requests w
     = (inl (main.mkBatch (map not_found_item requests)), w).
Proof.
  intros w requests.
  assert (Hall : Forall (fun request =>
                           dict.lookup (main.tool_name request) (tools w) = None) requests).
  { repeat constructor. }
  split; [exact Hall|].
  apply (@batch_of_unknown_names sample.classes requests w Hall).
Defined.

(** ** The keys of a registry *)

Section Keys.
Context {V : Type}.

Lemma contains_in_keys (key : string) (d : PyDict V) :
  dict.contains key d = true <-> In key (map fst d).
Proof.
  unfold dict.contains. induction d as [|[k v] rest IH]; cbn.
  - split; [discriminate | intros []].
  - destruct (String.eqb_spec k key) as [->|Hne].
    + split; auto.
    + rewrite IH. split; [auto | intros [Heq | Hin]; [contradiction | exact Hin]].
Qed.

Lemma setitem_keys (key : string) (v : V) (d : PyDict V) :
  map fst (dict.setitem key v d) =
  if dict.contains key d then map fst d else (map fst d ++ [key])%list.
Proof.
  unfold dict.contains. induction d as [|[k v0] rest IH]; cbn; [reflexivity|].
  destruct (String.eqb k key); cbn; [reflexivity|].
  rewrite IH. now destruct (dict.lookup key rest).
Qed.

Lemma setitem_fresh (key : string) (v : V) (d : PyDict V) :
  dict.contains key d = false -> dict.setitem key v d = (d ++ [(key, v)])%list.
Proof.
  unfold dict.contains. induction d as [|[k v0] rest IH]; cbn; [reflexivity|].
  destruct (String.eqb k key); [discriminate|].
  intros Hnone. now rewrite IH.
Qed.

Lemma NoDup_snoc (l : list string) (x : string) :
  NoDup l -> ~ In x l -> NoDup (l ++ [x]).
Proof.
  induction 1 as [|y l Hy Hl IH]; intros Hx; cbn.
  - constructor; [intros [] | constructor].
  - constructor.
    + rewrite in_app_iff. intros [Hin | [Heq | []]]; [contradiction|].
      apply Hx. left. symmetry. exact Heq.
    + apply IH. intros Hin. apply Hx. right. exact Hin.
Qed.

Lemma setitem_keeps_keys_distinct (key : string) (v : V) (d : PyDict V) :
  NoDup (map fst d) -> NoDup (map fst (dict.setitem key v d)).
Proof.
  intros Hd. rewrite setitem_keys.
  destruct (dict.contains key d) eqn:Hc; [exact Hd|].
  apply NoDup_snoc; [exact Hd|].
  rewrite <- contains_in_keys, Hc. discriminate.
Qed.

Lemma fold_setitem_keys_distinct (entries : list (string * V)) :
  forall d,
    NoDup (map fst d) ->
    NoDup (map fst (fold_left (fun d kv => dict.setitem (fst kv) (snd kv) d) entries d)).
Proof.
  induction entries as [|[k v] rest IH]; intros d Hd; cbn; [exact Hd|].
  apply IH. now apply setitem_keeps_keys_distinct.
Qed.

Lemma fold_setitem_keys_in (entries : list (string * V)) :
  forall d n,
    In n (map fst (fold_left (fun d kv => dict.setitem (fst kv) (snd kv) d) entries d))
    <-> In n (map fst d) \/ In n (map fst entries).
Proof.
  induction entries as [|[k v] rest IH]; intros d n; cbn.
  - split; [auto | intros [Hin | []]; exact Hin].
  - rewrite IH, setitem_keys.
    destruct (dict.contains k d) eqn:Hc.
    + apply contains_in_keys in Hc. split.
      * intros [Hin | Hin]; auto.
      * intros [Hin | [<- | Hin]]; auto.
    + rewrite in_app_iff. cbn. split.
      * intros [[Hin | [<- | []]] | Hin]; auto.
      * intros [Hin | [<- | Hin]]; auto.
Qed.

Lemma fold_setitem_distinct (entries : list (string * V)) :
  forall d,
    NoDup (map fst d ++ map fst entries) ->
    fold_left (fun d kv => dict.setitem (fst kv) (snd kv) d) entries d
    = (d ++ entries)%list.
Proof.
  induction entries as [|[k v] rest IH]; intros d Hd; cbn.
  - now rewrite app_nil_r.
  - cbn [map fst] in Hd.
    assert (Hfresh : dict.contains k d = false).
    { destruct (dict.contains k d) eqn:Hc; [|reflexivity].
      apply contains_in_keys in Hc. apply NoDup_remove_2 in Hd.
      exfalso. apply Hd. apply in_or_app. left. exact Hc. }
    rewrite (setitem_fresh _ _ _ Hfresh), IH.
    + now rewrite <- app_assoc.
    + rewrite map_app. cbn. now rewrite <- app_assoc.
Qed.

End Keys.

(** X6. Whatever entries a dict display is given, the names of the dict it
    builds are pairwise distinct and are the names of the entries; and when
    the names given are distinct, the dict holds the entries as given, in
    the order given. *)
Theorem dict_display_keeps_names_distinct :
  forall (V : Type) (entries : list (string * V)),
    NoDup (map fst (dict.display entries))
    /\ (forall n, In n (map fst (dict.display entries)) <-> In n (map fst entries))
    /\ (NoDup (map fst entries) -> dict.display entries = entries).
Proof.
  intros V entries. unfold dict.display. split; [|split].
  - apply fold_setitem_keys_distinct. constructor.
  - intros n. rewrite fold_setitem_keys_in. cbn. tauto.
  - intros Hd. now rewrite fold_setitem_distinct.
Qed.

(** ** Introspection: [list_tools], [get_tool_info], [health_check] *)

Lemma list_tools_loop_map (items : list (string * ToolObject)) :
  forall tool_list,
    main.list_tools_loop items tool_list =
    (tool_list ++
     map (fun kv =>
            VDict [ ("name", VStr (fst kv));
                    ("description", VStr (description (snd kv)));
                    ("parameters", dict_of_dicts (BaseTool.get_parameters (snd kv)));
                    ("status", VStr "available") ]) items)%list.
Proof.
  induction items as [|[name tool] rest IH]; intros tool_list; cbn.
  - now rewrite app_nil_r.
  - now rewrite IH, <- app_assoc.
Qed.

Lemma get_tool_info_registered tool_name tool w :
  dict.lookup tool_name (tools w) = Some tool ->
  main.get_tool_info tool_name w =
  (inl (VDict [ ("name", VStr tool_name);
                ("description", VStr (description tool));
                ("parameters", dict_of_dicts (BaseTool.get_parameters tool));
                ("status", VStr "available") ]), w).
Proof.
  intros Hreg.
  unfold main.get_tool_info, bind, global_tools, dict.contains, getitem.
  rewrite Hreg. cbn [negb]. now rewrite Hreg.
Qed.

(** X7. [list_tools] reads the registry without touching the world and
    lists one entry for each registered tool, in the order of the registry;
    the registry having distinct names, the entry at a position is what
    [get_tool_info] returns for the name at that position, and whatever
    [get_tool_info] returns for a name is in the list. *)
Theorem list_tools_agrees_with_get_tool_info :
  forall w,
    NoDup (map fst (tools w)) ->
    exists entries,
      main.list_tools w = (inl (VDict [("tools", VList entries)]), w)
      /\ length entries = length (tools w)
      /\ (forall i tool_name tool,
            nth_error (tools w) i = Some (tool_name, tool) ->
            exists entry,
              nth_error entries i = Some entry
              /\ main.get_tool_info tool_name w = (inl entry, w))
      /\ (forall tool_name entry w',
            main.get_tool_info tool_name w = (inl entry, w') ->
            In entry entries /\ w' = w).
Proof.
  intros w Hdistinct.
  eexists. unfold main.list_tools, bind, global_tools, ret.
  rewrite list_tools_loop_map. cbn [app].
  split; [reflexivity|]. split; [apply length_map|]. split.
  - intros i tool_name tool Hnth. eexists. split.
    + rewrite nth_error_map, Hnth. reflexivity.
    + cbn [fst snd]. apply get_tool_info_registered.
      apply lookup_unique_key; [exact Hdistinct|].
      eapply nth_error_In. exact Hnth.
  - intros tool_name entry w' Hrun.
    destruct (dict.lookup tool_name (tools w)) as [tool|] eqn:Hreg.
    + rewrite (get_tool_info_registered _ _ _ Hreg) in Hrun.
      injection Hrun as <- <-. split; [|reflexivity].
      apply in_map_iff. exists (tool_name, tool). split; [reflexivity|].
      clear Hdistinct. induction (tools w) as [|[k v] rest IH]; [discriminate|].
      cbn in Hreg. destruct (String.eqb_spec k tool_name) as [->|Hne].
      * injection Hreg as ->. now left.
      * right. now apply IH.
    + unfold main.get_tool_info, bind, global_tools, dict.contains in Hrun.
      rewrite Hreg in Hrun. discriminate.
Qed.

Lemma list_tools_agrees_with_get_tool_info_witness :
  let w := sample.world [] in
  NoDup (map fst (tools w))
  /\ exists entries,
      main.list_tools w = (inl (VDict [("tools", VList entries)]), w)
      /\ length entries = 5%nat
      /\ exists entry,
          nth_error entries 0 = Some entry
          /\ main.get_tool_info "web_search" w = (inl entry, w).
Proof.
  intros w.
  assert (Hdistinct : NoDup (map fst (tools w))).
  { apply fold_setitem_keys_distinct. constructor. }
  split; [exact Hdistinct|].
  destruct (list_tools_agrees_with_get_tool_info w Hdistinct)
    as (entries & Hrun & Hlen & Hnth & _).
  exists entries. split; [exact Hrun|]. split; [exact Hlen|].
  apply (Hnth 0%nat "web_search" WebSearchTool.__init__). reflexivity.
Defined.

(** X8. [health_check] reads the clock once and nothing else changes; the
    names it reports as available are the names of the registry in its
    order, which are the names of the entries of [list_tools]. *)
Theorem health_check_lists_the_registry :
  forall (isoformat : Z -> string) (w : World),
    exists entries,
      main.health_check isoformat w
      = (inl (VDict [ ("status", VStr "healthy");
                      ("timestamp", VStr (isoformat (clock w (ticks w))));
                      ("available_tools", VList (map VStr (map fst (tools w)))) ]),
         tick w)
      /\ main.list_tools w = (inl (VDict [("tools", VList entries)]), w)
      /\ map (fun entry =>
                match entry with
                | VDict d => dict.lookup "name" d
                | _ => None
                end) entries
         = map (fun n => Some (VStr n)) (map fst (tools w)).
Proof.
  intros isoformat w. eexists.
  unfold main.health_check, main.list_tools, bind, datetime_now, global_tools, ret.
  cbn [tools tick]. rewrite list_tools_loop_map, map_map. cbn [app].
  split; [reflexivity|]. split; [reflexivity|].
  rewrite !map_map. apply map_ext. intros [n tool]. reflexivity.
Qed.

(** ** Validation, and execution behind validation *)

Lemma check_required_present (names : list string) (parameters : ref) (w : World) :
  fst (BaseTool.check_required names parameters w) = inl tt
  <-> forallb (fun k => dict.contains k (heap w parameters)) names = true.
Proof.
  induction names as [|k rest IH]; [cbn; tauto|].
  rewrite check_required_cons. cbn [forallb].
  destruct (dict.contains k (heap w parameters)); cbn [andb fst];
    [exact IH | split; discriminate].
Qed.

Lemma check_required_same_keys (names : list string) p1 p2 w1 w2 :
  (forall k, In k names ->
             dict.contains k (heap w1 p1) = dict.contains k (heap w2 p2)) ->
  fst (BaseTool.check_required names p1 w1) = fst (BaseTool.check_required names p2 w2).
Proof.
  induction names as [|k rest IH]; intros Hsame; [reflexivity|].
  rewrite !check_required_cons, <- (Hsame k (or_introl eq_refl)).
  destruct (dict.contains k (heap w1 p1)); [|reflexivity].
  apply IH. intros k' Hin. apply Hsame. now right.
Qed.

Lemma validate_parameters_run self parameters w :
  BaseTool.validate_parameters self parameters w =
  (match fst (BaseTool.check_required (BaseTool.required_params self) parameters w) with
   | inl _ => inl true
   | inr e => inr e
   end, w).
Proof.
  unfold BaseTool.validate_parameters, bind, ret.
  pose proof (check_required_world parameters w (BaseTool.required_params self)) as Hw.
  destruct (BaseTool.check_required (BaseTool.required_params self) parameters w)
    as [[[]|e] w']; cbn [fst snd] in *; now subst w'.
Qed.

(** X9. Validation looks at which required keys are present and at nothing
    else: two parameter dicts that hold the same required keys get the same
    verdict, with the same error, whatever the values (null included) and
    whatever other keys they hold. *)
Theorem validation_depends_on_required_keys_only :
  forall self p1 p2 w1 w2,
    (forall k, In k (BaseTool.required_params self) ->
               dict.contains k (heap w1 p1) = dict.contains k (heap w2 p2)) ->
    fst (BaseTool.validate_parameters self p1 w1)
    = fst (BaseTool.validate_parameters self p2 w2).
Proof.
  intros self p1 p2 w1 w2 Hsame.
  rewrite !validate_parameters_run. cbn [fst].
  now rewrite (check_required_same_keys _ p1 p2 w1 w2 Hsame).
Qed.

Lemma validation_depends_on_required_keys_only_witness :
  let self := WebSearchTool.__init__ in
  let w1 := sample.world [("query", VStr "rocq")] in
  let w2 := sample.world [("query", VNone); ("page", VInt 3)] in
  (forall k, In k (BaseTool.required_params self) ->
             dict.contains k (heap w1 0%nat) = dict.contains k (heap w2 0%nat))
  /\ fst (BaseTool.validate_parameters self 0%nat w1) = inl true
  /\ fst (BaseTool.validate_parameters self 0%nat w2) = inl true.
Proof.
  intros self w1 w2.
  assert (Hsame : forall k, In k (BaseTool.required_params self) ->
                            dict.contains k (heap w1 0%nat) = dict.contains k (heap w2 0%nat)).
  { intros k [<- | []]. reflexivity. }
  split; [exact Hsame|]. split; [reflexivity|].
  rewrite <- (validation_depends_on_required_keys_only self 0%nat 0%nat w1 w2 Hsame).
  reflexivity.
Defined.

(** X10. Parameters that pass validation still pass with keys added or
    values replaced: whenever every key of the first dict is a key of the
    second, acceptance of the first implies acceptance of the second. *)
Theorem validation_accepts_more_keys :
  forall self p1 p2 w1 w2,
    (forall k, dict.contains k (heap w1 p1) = true -> dict.contains k (heap w2 p2) = true) ->
    fst (BaseTool.validate_parameters self p1 w1) = inl true ->
    fst (BaseTool.validate_parameters self p2 w2) = inl true.
Proof.
  intros self p1 p2 w1 w2 Hmore.
  rewrite !validate_parameters_run. cbn [fst].
  destruct (fst (BaseTool.check_required (BaseTool.required_params self) p1 w1))
    as [[]|e] eqn:H1; [|discriminate].
  intros _. apply check_required_present in H1.
  assert (H2 : forallb (fun k => dict.contains k (heap w2 p2))
                       (BaseTool.required_params self) = true).
  { rewrite forallb_forall in *. intros k Hin. apply Hmore, H1, Hin. }
  apply check_required_present in H2. now rewrite H2.
Qed.

Lemma validation_accepts_more_keys_witness :
  let self := DataAnalysisTool.__init__ in
  let w1 := sample.world [("data", VList []); ("analysis_type", VStr "trend")] in
  let w2 := sample.world [("analysis_type", VInt 7); ("data", VNone); ("verbose", VBool true)] in
  (forall k, dict.contains k (heap w1 0%nat) = true -> dict.contains k (heap w2 0%nat) = true)
  /\ fst (BaseTool.validate_parameters self 0%nat w1) = inl true
  /\ fst (BaseTool.validate_parameters self 0%nat w2) = inl true.
Proof.
  intros self w1 w2.
  assert (Hmore : forall k, dict.contains k (heap w1 0%nat) = true ->
                            dict.contains k (heap w2 0%nat) = true).
  { intros k Hk. apply contains_in_keys in Hk. apply contains_in_keys.
    cbn in Hk |- *. tauto. }
  split; [exact Hmore|]. split; [reflexivity|].
  apply (validation_accepts_more_keys self 0%nat 0%nat w1 w2 Hmore). reflexivity.
Defined.

(** X11. When validation fails, [execute_with_validation] raises the
    validation error as it is, logs it once, and leaves everything else
    untouched; [execute] is not run, so the outcome is the same under every
    method table. *)
Theorem execute_with_validation_stops_at_validation :
  forall (table : Classes) self parameters w e,
    fst (BaseTool.validate_parameters self parameters w) = inr e ->
    @BaseTool.execute_with_validation table self parameters w
    = (inr e, with_log (log w ++ ["Tool execution failed: " ++ exc_text e]) w).
Proof.
  intros table self parameters w e Hfail.
  unfold BaseTool.execute_with_validation, try_except, bind at 1.
  rewrite validate_parameters_run in Hfail |- *. cbn [fst] in Hfail.
  destruct (fst (BaseTool.check_required (BaseTool.required_params self) parameters w))
    as [[]|e']; [discriminate|].
  injection Hfail as ->. reflexivity.
Qed.

Lemma execute_with_validation_stops_at_validation_witness :
  let w := sample.world [("num_results", VInt 3)] in
  let e := ValueError "Missing required parameter: query" in
  fst (BaseTool.validate_parameters WebSearchTool.__init__ 0%nat w) = inr e
  /\ @BaseTool.execute_with_validation sample.writing_classes WebSearchTool.__init__ 0%nat w
     = (inr e, with_log ["Tool execution failed: Missing required parameter: query"] w).
Proof.
  intros w e. split; [reflexivity|].
  apply (execute_with_validation_stops_at_validation sample.writing_classes
           WebSearchTool.__init__ 0%nat w e).
  reflexivity.
Defined.

(** X12. When validation passes, [execute_with_validation] is [execute]:
    it returns what [execute] returns and leaves the world [execute]
    leaves; when [execute] raises, it raises the same exception after
    logging it once. *)
Theorem execute_with_validation_runs_execute `{Classes} :
  forall self parameters w,
    fst (BaseTool.validate_parameters self parameters w) = inl true ->
    forall outcome w',
      execute_of (tool_class self) self parameters w = (outcome, w') ->
      BaseTool.execute_with_validation self parameters w
      = match outcome with
        | inl v => (inl v, w')
        | inr e => (inr e, with_log (log w' ++ ["Tool execution failed: " ++ exc_text e]) w')
        end.
Proof.
  intros self parameters w Hpass outcome w' Hrun.
  unfold BaseTool.execute_with_validation, try_except, bind at 1.
  rewrite validate_parameters_run in Hpass |- *. cbn [fst] in Hpass.
  destruct (fst (BaseTool.check_required (BaseTool.required_params self) parameters w))
    as [[]|e']; [|discriminate].
  rewrite Hrun. now destruct outcome.
Qed.

Lemma execute_with_validation_runs_execute_witness :
  let w := sample.world [("query", VStr "rocq"); ("num_results", VStr "two")] in
  let e := TypeError "slice indices must be integers or None or have an __index__ method" in
  let w' := with_log ["Web search failed: " ++ exc_text e] w in
  fst (BaseTool.validate_parameters WebSearchTool.__init__ 0%nat w) = inl true
  /\ WebSearchTool.execute WebSearchTool.__init__ 0%nat w = (inr e, w')
  /\ @BaseTool.execute_with_validation sample.classes WebSearchTool.__init__ 0%nat w
     = (inr e, with_log (log w' ++ ["Tool execution failed: " ++ exc_text e]) w').
Proof.
  intros w e w'. split; [reflexivity|]. split; [reflexivity|].
  apply (@execute_with_validation_runs_execute sample.classes
           WebSearchTool.__init__ 0%nat w eq_refl (inr e) w').
  reflexivity.
Defined.

(** ** The web search tool *)

Lemma get_setitem (d : Dict) (key key' : string) (v default : Value) :
  dict.get (dict.setitem key v d) key' default =
  if String.eqb key key' then v else dict.get d key' default.
Proof.
  unfold dict.get. destruct (String.eqb_spec key key') as [<-|Hne].
  - now rewrite lookup_setitem_same.
  - now rewrite lookup_setitem_other.
Qed.

Lemma get_absent (d : Dict) (key : string) (default : Value) :
  dict.contains key d = false -> dict.get d key default = default.
Proof.
  unfold dict.get, dict.contains. now destruct (dict.lookup key d).
Qed.

(** What [WebSearchTool.execute] returns or raises is decided by the three
    values it reads. *)
Lemma web_search_reads_three_values self p1 p2 w1 w2 :
  dict.get (heap w1 p1) "query" VNone = dict.get (heap w2 p2) "query" VNone ->
  dict.get (heap w1 p1) "num_results" (VInt 10)
  = dict.get (heap w2 p2) "num_results" (VInt 10) ->
  dict.get (heap w1 p1) "search_type" (VStr "web")
  = dict.get (heap w2 p2) "search_type" (VStr "web") ->
  fst (WebSearchTool.execute self p1 w1) = fst (WebSearchTool.execute self p2 w2).
Proof.
  intros Hquery Hcount Htype.
  unfold WebSearchTool.execute, WebSearchTool._perform_search,
    bind, try_except, params_get, slice_to, ret, raise, logger_error.
  cbn [fst snd]. rewrite Hquery, Hcount, Htype.
  destruct (dict.get (heap w2 p2) "num_results" (VInt 10)); reflexivity.
Qed.


Lemma slice_to_length {A} (l : list A) (stop : Value) (w : World) r w' :
  slice_to l stop w = (inl r, w') ->
  (length r <= length l)%nat
  /\ forall n, stop = VInt n ->
                length r = if n <? 0 then Z.to_nat (Z.of_nat (length l) + n)
                           else Nat.min (length l) (Z.to_nat n).
Proof.
  unfold slice_to, ret, raise.
  destruct stop as [|b|n|t|s|l0|d]; intros Hrun; try discriminate;
    injection Hrun as <- _.
  - split; [lia | intros n Hn; discriminate].
  - split; [|intros n Hn; discriminate].
    destruct b; cbn [Z.ltb Z.compare]; rewrite length_firstn; lia.
  - split.
    + destruct (n <? 0); rewrite length_firstn; lia.
    + intros n' Hn. injection Hn as <-.
      destruct (n <? 0) eqn:Hneg; rewrite length_firstn; lia.
Qed.

(** X14. What [web_search] returns echoes the query and the search type it
    read, and reports as [num_results] the length of [results], which is
    never more than the two canned results: asked for [n >= 0] it hands
    back [min 2 n] of them, asked for [n < 0] it hands back [2 + n] of them
    or none. *)
Theorem web_search_result_shape :
  forall self params w v w',
    WebSearchTool.execute self params w = (inl v, w') ->
    exists results,
      v = VDict [ ("query", dict.get (heap w params) "query" VNone);
                  ("search_type", dict.get (heap w params) "search_type" (VStr "web"));
                  ("num_results", VInt (Z.of_nat (length results)));
                  ("results", VList results);
                  ("timestamp", VStr "2024-01-01T00:00:00Z") ]
      /\ (length results <= 2)%nat
      /\ (forall n, dict.get (heap w params) "num_results" (VInt 10) = VInt n ->
                    length results = results_for n).
Proof.
  intros self params w v w'.
  unfold WebSearchTool.execute, WebSearchTool._perform_search,
    bind, try_except, params_get, ret.
  destruct (slice_to _ (dict.get (heap w params) "num_results" (VInt 10)) w)
    as [[results|e] w1] eqn:Hslice; intros Hrun.
  - injection Hrun as <- _. exists results. split; [reflexivity|].
    apply slice_to_length in Hslice. cbn [length] in Hslice.
    destruct Hslice as [Hle Hcount]. split; [exact Hle|].
    intros n Hn. rewrite (Hcount n Hn). unfold results_for.
    destruct (n <? 0); [f_equal; lia | reflexivity].
  - unfold raise, logger_error in Hrun. discriminate.
Qed.

Lemma web_search_result_shape_witness :
  let w := sample.world [("query", VStr "rocq"); ("num_results", VInt (-1))] in
  let v :=
    VDict [ ("query", VStr "rocq");
            ("search_type", VStr "web");
            ("num_results", VInt 1);
            ("results",
              VList [ VDict [ ("title", VStr "搜索结果 1 - rocq");
                              ("url", VStr "https://example.com/result1");
                              ("snippet", VStr "这是关于 rocq 的第一个搜索结果...");
                              ("source", VStr "example.com") ] ]);
            ("timestamp", VStr "2024-01-01T00:00:00Z") ] in
  WebSearchTool.execute WebSearchTool.__init__ 0%nat w = (inl v, w)
  /\ exists results,
      v = VDict [ ("query", VStr "rocq");
                  ("search_type", VStr "web");
                  ("num_results", VInt (Z.of_nat (length results)));
                  ("results", VList results);
                  ("timestamp", VStr "2024-01-01T00:00:00Z") ]
      /\ length results = 1%nat.
Proof.
  intros w v. split; [reflexivity|].
  destruct (web_search_result_shape WebSearchTool.__init__ 0%nat w v w eq_refl)
    as (results & Hv & _ & Hcount).
  exists results. split; [exact Hv|].
  apply (Hcount (-1)). reflexivity.
Defined.

(** X15. For [web_search], leaving out an optional parameter is the same
    as passing the default its schema declares: when the key is absent,
    the outcome is the one obtained with the key set to that default. *)
Theorem web_search_absent_is_declared_default :
  forall self params w key spec default,
    dict.lookup key (parameters WebSearchTool.__init__) = Some spec ->
    dict.lookup "default" spec = Some default ->
    dict.contains key (heap w params) = false ->
    fst (WebSearchTool.execute self params w)
    = fst (WebSearchTool.execute self params (heap_setitem params key default w)).
Proof.
  intros self params w key spec default Hspec Hdefault Habsent.
  assert (Hcases : (key = "num_results" /\ default = VInt 10)
                   \/ (key = "search_type" /\ default = VStr "web")).
  { unfold WebSearchTool.__init__ in Hspec. cbn [parameters dict.lookup] in Hspec.
    destruct (String.eqb_spec "query" key) as [_|_];
      [injection Hspec as <-; discriminate Hdefault|].
    destruct (String.eqb_spec "num_results" key) as [<-|_];
      [injection Hspec as <-; injection Hdefault as <-; now left|].
    destruct (String.eqb_spec "search_type" key) as [<-|_]; [|discriminate].
    injection Hspec as <-. injection Hdefault as <-. now right. }
  apply web_search_reads_three_values;
    unfold heap_setitem, params_setitem, with_heap; cbn [snd heap];
    rewrite Nat.eqb_refl, get_setitem;
    destruct Hcases as [[-> ->] | [-> ->]]; cbn [String.eqb Ascii.eqb Bool.eqb];
    try reflexivity; now rewrite get_absent.
Qed.

Lemma web_search_absent_is_declared_default_witness :
  let w := sample.world [("query", VStr "rocq")] in
  let spec := [ ("type", VStr "integer");
                ("description", VStr "返回结果数量");
                ("required", VBool false);
                ("default", VInt 10) ] in
  dict.lookup "num_results" (parameters WebSearchTool.__init__) = Some spec
  /\ dict.lookup "default" spec = Some (VInt 10)
  /\ dict.contains "num_results" (heap w 0%nat) = false
  /\ heap (heap_setitem 0%nat "num_results" (VInt 10) w) 0%nat
     = [("query", VStr "rocq"); ("num_results", VInt 10)]
  /\ fst (WebSearchTool.execute WebSearchTool.__init__ 0%nat w)
     = fst (WebSearchTool.execute WebSearchTool.__init__ 0%nat
              (heap_setitem 0%nat "num_results" (VInt 10) w)).
Proof.
  intros w spec. repeat (split; [reflexivity|]).
  apply (web_search_absent_is_declared_default WebSearchTool.__init__ 0%nat w
           "num_results" spec (VInt 10)); reflexivity.
Defined.

(** ** The report generation tool *)



(** X17. With [format] equal to ["json"], [ReportGenerationTool.execute]
    returns for every title, content and template, present or not and of
    whatever type: it calls neither of the two other generators, logs
    nothing, reads the clock twice, and nests the title, the template and
    the content it read, unchanged, in the report. *)
Theorem report_generation_json_always_returns :
  forall markdown html isoformat self params w,
    dict.get (heap w params) "format" (VStr "markdown") = VStr "json" ->
    let title := dict.get (heap w params) "title" VNone in
    let content := dict.get (heap w params) "content" VNone in
    let template := dict.get (heap w params) "template" (VStr "standard") in
    ReportGenerationTool.execute markdown html isoformat self params w
    = (inl (VDict
              [ ("title", title);
                ("format", VStr "json");
                ("template", template);
                ("content",
                  VDict [ ("title", title);
                          ("generated_at", VStr (isoformat (clock w (ticks w))));
                          ("template", template);
                          ("content", content) ]);
                ("generated_at", VStr (isoformat (clock w (S (ticks w))))) ]),
       tick (tick w)).
Proof.
  intros markdown html isoformat self params w Hformat title content template.
  unfold ReportGenerationTool.execute, ReportGenerationTool._generate_json_report,
    bind, try_except, params_get, datetime_now, ret.
  rewrite Hformat. reflexivity.
Qed.

Lemma report_generation_json_always_returns_witness :
  let w := sample.world [("format", VStr "json")] in
  dict.get (heap w 0%nat) "format" (VStr "markdown") = VStr "json"
  /\ fst (ReportGenerationTool.execute sample.no_generator sample.no_generator str_of_int
            ReportGenerationTool.__init__ 0%nat w)
     = inl (VDict
              [ ("title", VNone);
                ("format", VStr "json");
                ("template", VStr "standard");
                ("content",
                  VDict [ ("title", VNone);
                          ("generated_at", VStr "1700000000000000");
                          ("template", VStr "standard");
                          ("content", VNone) ]);
                ("generated_at", VStr "1700000000001500") ]).
Proof.
  intros w. split; [reflexivity|].
  rewrite (report_generation_json_always_returns
             sample.no_generator sample.no_generator str_of_int
             ReportGenerationTool.__init__ 0%nat w eq_refl).
  reflexivity.
Defined.
